(** * emoji-explainer: a shallow embedding of the request handlers

    The service is a flat set of thirteen FastAPI handlers over one Prisma
    data store and one outbound HTTP call.  Each Python module
    [project/<name>_service.py] is a [Module] here holding its response
    model and its service function; [server.py] is the [Module server].

    Effects are explicit: a handler is a function from a [World] (the tables,
    the wall clock and the trace of data-store queries and outbound calls
    made so far) to a result-or-exception and the next world. *)

From Stdlib Require Import ZArith String Ascii List Lia.
From stdpp Require Import base option list gmap strings pretty sorting.

Local Open Scope string_scope.
Local Open Scope Z_scope.

(** ** Exceptions and results *)

(** The subclasses of [Exception] that the handlers and the libraries under
    them raise. *)
Inductive exn : Type :=
  | ValueError (msg : string)
  | AttributeError (msg : string)
  | ValidationError (msg : string)
  | KeyError (key : string)
  | HTTPException (status_code : Z) (detail : string)
  | HTTPStatusError (msg : string)
  | TransportError (msg : string)
  | UniqueViolationError (msg : string).

(** [str(e)].  Starlette's [HTTPException.__str__] prints the status code
    and the detail, a [KeyError] prints the [repr] of its key, and the
    others print their message. *)
Definition str (e : exn) : string :=
  match e with
  | ValueError m | AttributeError m | ValidationError m
  | HTTPStatusError m | TransportError m | UniqueViolationError m => m
  | KeyError k => "'" +:+ k +:+ "'"
  | HTTPException c d => pretty c +:+ ": " +:+ d
  end.

Definition is_ValueError (e : exn) : bool :=
  match e with ValueError _ => true | _ => false end.

Inductive Result (A : Type) : Type :=
  | Ok (a : A)
  | Raise (e : exn).
Arguments Ok {A} a.
Arguments Raise {A} e.

(** ** The data store (Prisma models) *)

Module prisma.

(** [prisma.enums.Role], a [str] enum.  A model object that the client
    returns holds the column as the [str] value of the member, which is
    also its name ([Role_name]); comparing the column with a member, as
    [deleteUser] does, compares these values.  The service functions that
    take a role use only its [.name] or [.value], or hand it to the client
    as it is, so a role argument is given here by the member it stands
    for. *)
Inductive Role : Type := ADMIN | USER.

#[global] Instance Role_eq_dec : EqDecision Role.
Proof. solve_decision. Defined.

Definition Role_name (r : Role) : string :=
  match r with ADMIN => "ADMIN" | USER => "USER" end.

(** A table maps the primary key [id] to the other columns of the row. *)
Record UserRow : Type := {
  email : string;
  password : string;
  role : Role }.

Record EmojiExplanationRow : Type := {
  emoji : string;
  explanation : string }.

Record EmojiRequestRow : Type := {
  userId : Z;
  req_emoji : string;
  req_explanation : option string;
  status : string;
  createdAt : Z }.

(** A model object as the client returns it: the key and the columns. *)
Record Model (R : Type) : Type := { id : Z; columns : R }.
Arguments id {R} _.
Arguments columns {R} _.

Definition User := Model UserRow.
Definition EmojiExplanation := Model EmojiExplanationRow.
Definition EmojiRequest := Model EmojiRequestRow.

Record Store : Type := {
  User_table : gmap Z UserRow;
  User_seq : Z;
  EmojiExplanation_table : gmap Z EmojiExplanationRow;
  EmojiExplanation_seq : Z;
  EmojiRequest_table : gmap Z EmojiRequestRow }.

Definition rows {R} (t : gmap Z R) : list (Model R) :=
  (λ kv, {| id := kv.1; columns := kv.2 |}) <$> map_to_list t.

(** The row selected by a unique column other than the key. *)
Definition find_by {R} (p : R → bool) (t : gmap Z R) : option (Model R) :=
  List.find (λ m, p (columns m)) (rows t).

End prisma.

(** ** The world and the handler monad *)

Inductive Event : Type :=
  | Query (model action : string)
  | Post (url : string) (emoji : string).

Record World : Type := {
  db : prisma.Store;
  trace : list Event;
  now : Z }.

Definition M (A : Type) : Type := World → Result A * World.

Definition ret {A} (a : A) : M A := λ w, (Ok a, w).

Definition raise {A} (e : exn) : M A := λ w, (Raise e, w).

Definition bind {A B} (c : M A) (k : A → M B) : M B :=
  λ w, match c w with
       | (Ok a, w') => k a w'
       | (Raise e, w') => (Raise e, w')
       end.

(** [try: c except Exception as e: h e] *)
Definition try_except {A} (c : M A) (h : exn → M A) : M A :=
  λ w, match c w with
       | (Ok a, w') => (Ok a, w')
       | (Raise e, w') => h e w'
       end.

Notation "'let*' x ':=' c 'in' k" := (bind c (λ x, k))
  (at level 10, x binder, c at level 100, k at level 200).

Definition lift {A} (r : Result A) : M A := λ w, (r, w).

Definition log (ev : Event) : M unit :=
  λ w, (Ok tt, {| db := db w; trace := trace w ++ [ev]; now := now w |}).

Definition get_db : M prisma.Store := λ w, (Ok (db w), w).

Definition put_db (s : prisma.Store) : M unit :=
  λ w, (Ok tt, {| db := s; trace := trace w; now := now w |}).

Definition datetime_now : M Z := λ w, (Ok (now w), w).

(** What a run added to the trace. *)
Definition queries (tr : list Event) : nat :=
  length (List.filter (λ ev, match ev with Query _ _ => true | _ => false end) tr).

Definition posts (tr : list Event) : nat :=
  length (List.filter (λ ev, match ev with Post _ _ => true | _ => false end) tr).

(** ** Prisma client actions, one trace entry each *)

Module actions.
Import prisma.

Definition set_users (t : gmap Z UserRow) (seq : Z) (s : Store) : Store :=
  {| User_table := t; User_seq := seq;
     EmojiExplanation_table := EmojiExplanation_table s;
     EmojiExplanation_seq := EmojiExplanation_seq s;
     EmojiRequest_table := EmojiRequest_table s |}.

Definition set_explanations (t : gmap Z EmojiExplanationRow) (seq : Z)
    (s : Store) : Store :=
  {| User_table := User_table s; User_seq := User_seq s;
     EmojiExplanation_table := t; EmojiExplanation_seq := seq;
     EmojiRequest_table := EmojiRequest_table s |}.

Definition set_requests (t : gmap Z EmojiRequestRow) (s : Store) : Store :=
  {| User_table := User_table s; User_seq := User_seq s;
     EmojiExplanation_table := EmojiExplanation_table s;
     EmojiExplanation_seq := EmojiExplanation_seq s;
     EmojiRequest_table := t |}.

(** [User.prisma().find_unique(where={"id": i})] *)
Definition User_find_unique_id (i : Z) : M (option User) :=
  let* _ := log (Query "User" "find_unique") in
  let* s := get_db in
  ret ((λ r, {| id := i; columns := r |}) <$> User_table s !! i).

(** [User.prisma().find_unique(where={"email": e})] *)
Definition User_find_unique_email (e : string) : M (option User) :=
  let* _ := log (Query "User" "find_unique") in
  let* s := get_db in
  ret (find_by (λ r, String.eqb (email r) e) (User_table s)).

(** [User.prisma().create(data=...)]: the key is the next value of the
    sequence; [email] is a unique column (the source selects by it with
    [find_unique]), so a second row with the same email is refused. *)
Definition User_create (r : UserRow) : M User :=
  let* _ := log (Query "User" "create") in
  let* s := get_db in
  match find_by (λ r', String.eqb (email r') (email r)) (User_table s),
        User_table s !! User_seq s with
  | None, None =>
      let* _ := put_db (set_users (<[User_seq s := r]> (User_table s))
                                  (User_seq s + 1) s) in
      ret {| id := User_seq s; columns := r |}
  | _, _ => raise (UniqueViolationError "Unique constraint failed")
  end.

(** The [data] of an update of a user: the columns present are replaced. *)
Record UserUpdateInput : Type := {
  set_email : option string;
  set_role : option Role }.

Definition apply_update (d : UserUpdateInput) (r : UserRow) : UserRow :=
  {| email := default (email r) (set_email d);
     password := password r;
     role := default (role r) (set_role d) |}.

(** [User.prisma().update(where={"id": i}, data=d)]: [None] when no row
    has the key; an email taken by another row is refused. *)
Definition User_update (i : Z) (d : UserUpdateInput) : M (option User) :=
  let* _ := log (Query "User" "update") in
  let* s := get_db in
  match User_table s !! i with
  | None => ret None
  | Some r =>
      let r' := apply_update d r in
      match find_by (λ o, String.eqb (email o) (email r')) (delete i (User_table s)) with
      | Some _ => raise (UniqueViolationError "Unique constraint failed")
      | None =>
          let* _ := put_db (set_users (<[i := r']> (User_table s)) (User_seq s) s) in
          ret (Some {| id := i; columns := r' |})
      end
  end.

(** [User.prisma().delete(where={"id": i})] *)
Definition User_delete (i : Z) : M (option User) :=
  let* _ := log (Query "User" "delete") in
  let* s := get_db in
  match User_table s !! i with
  | None => ret None
  | Some r =>
      let* _ := put_db (set_users (delete i (User_table s)) (User_seq s) s) in
      ret (Some {| id := i; columns := r |})
  end.

(** [EmojiRequest.prisma().delete_many(where={"userId": u})] *)
Definition EmojiRequest_delete_many (u : Z) : M Z :=
  let* _ := log (Query "EmojiRequest" "delete_many") in
  let* s := get_db in
  let gone := filter (λ kv, userId kv.2 = u) (EmojiRequest_table s) in
  let kept := filter (λ kv, userId kv.2 ≠ u) (EmojiRequest_table s) in
  let* _ := put_db (set_requests kept s) in
  ret (Z.of_nat (size gone)).

(** [EmojiRequest.prisma().count()] *)
Definition EmojiRequest_count : M Z :=
  let* _ := log (Query "EmojiRequest" "count") in
  let* s := get_db in
  ret (Z.of_nat (size (EmojiRequest_table s))).

(** Most recent first. *)
Definition newer_first (a b : EmojiRequest) : Prop := createdAt (columns b) ≤ createdAt (columns a).

#[global] Instance newer_first_dec : RelDecision newer_first.
Proof. intros a b. unfold newer_first. apply _. Defined.

(** [EmojiRequest.prisma().find_many(where={"status": st},
    order={"createdAt": "desc"}, take=n)] *)
Definition EmojiRequest_find_many (st : string) (n : nat) : M (list EmojiRequest) :=
  let* _ := log (Query "EmojiRequest" "find_many") in
  let* s := get_db in
  ret (take n (merge_sort newer_first
         (List.filter (λ r : EmojiRequest, String.eqb (status (columns r)) st)
                      (rows (EmojiRequest_table s))))).

(** [User.prisma().find_unique(where={"id": i},
    include={"role": True, "requests": ...})]: the row with the requests
    that belong to it ([role] is one of its columns). *)
Definition User_find_unique_with_requests (i : Z)
    : M (option (User * list EmojiRequest)) :=
  let* _ := log (Query "User" "find_unique") in
  let* s := get_db in
  ret ((λ r, ({| id := i; columns := r |},
              List.filter (λ q : EmojiRequest, Z.eqb (userId (columns q)) i)
                          (rows (EmojiRequest_table s))))
       <$> User_table s !! i).

(** [EmojiExplanation.prisma().find_unique(where={"id": i})] *)
Definition EmojiExplanation_find_unique_id (i : Z) : M (option EmojiExplanation) :=
  let* _ := log (Query "EmojiExplanation" "find_unique") in
  let* s := get_db in
  ret ((λ r, {| id := i; columns := r |}) <$> EmojiExplanation_table s !! i).

(** [EmojiExplanation.prisma().find_unique(where={"emoji": e})] *)
Definition EmojiExplanation_find_unique_emoji (e : string)
    : M (option EmojiExplanation) :=
  let* _ := log (Query "EmojiExplanation" "find_unique") in
  let* s := get_db in
  ret (find_by (λ r, String.eqb (emoji r) e) (EmojiExplanation_table s)).

(** [EmojiExplanation.prisma().create(data=...)]; [emoji] is unique. *)
Definition EmojiExplanation_create (r : EmojiExplanationRow) : M EmojiExplanation :=
  let* _ := log (Query "EmojiExplanation" "create") in
  let* s := get_db in
  match find_by (λ r', String.eqb (emoji r') (emoji r)) (EmojiExplanation_table s),
        EmojiExplanation_table s !! EmojiExplanation_seq s with
  | None, None =>
      let* _ := put_db (set_explanations
                          (<[EmojiExplanation_seq s := r]> (EmojiExplanation_table s))
                          (EmojiExplanation_seq s + 1) s) in
      ret {| id := EmojiExplanation_seq s; columns := r |}
  | _, _ => raise (UniqueViolationError "Unique constraint failed")
  end.

End actions.

(** ** deleteUser_service.py *)

Module deleteUser_service.
Import prisma actions.

Record DeleteUserResponse : Type := {
  status : string;
  message : string }.

Definition unauthorized (approver : option User) : bool :=
  match approver with
  | None => true
  | Some a => bool_decide (role (columns a) ≠ ADMIN)
  end.

Definition deleteUser (userId approverId : Z) : M DeleteUserResponse :=
  let* approver := User_find_unique_id approverId in
  if unauthorized approver then
    ret {| status := "error";
           message := "Approver is not authorized or does not exist." |}
  else
    let* user := User_find_unique_id userId in
    match user with
    | None => ret {| status := "error"; message := "User does not exist." |}
    | Some u =>
        if bool_decide (role (columns u) = ADMIN) then
          ret {| status := "error"; message := "Cannot delete an admin user." |}
        else
          let* _ := EmojiRequest_delete_many userId in
          let* _ := User_delete userId in
          ret {| status := "success"; message := "User successfully deleted." |}
    end.

End deleteUser_service.

(** ** Python builtins *)

Module builtins.

Definition is_space (c : ascii) : bool :=
  let n := nat_of_ascii c in
  ((9 <=? n) && (n <=? 13) || (n =? 32))%nat.

Definition digit (c : ascii) : option Z :=
  let n := nat_of_ascii c in
  if ((48 <=? n) && (n <=? 57))%nat then Some (Z.of_nat n - 48) else None.

Fixpoint lstrip (s : string) : string :=
  match s with
  | String c s' => if is_space c then lstrip s' else s
  | EmptyString => s
  end.

Fixpoint all_space (s : string) : bool :=
  match s with
  | String c s' => is_space c && all_space s'
  | EmptyString => true
  end.

(** Decimal digits, single underscores between digits allowed, trailing
    white space ignored. *)
Fixpoint digits (acc : Z) (after_digit : bool) (s : string) : option Z :=
  match s with
  | EmptyString => if after_digit then Some acc else None
  | String c s' =>
      match digit c with
      | Some d => digits (10 * acc + d) true s'
      | None =>
          if after_digit then
            if Ascii.eqb c "_" then digits acc false s'
            else if all_space s then Some acc else None
          else None
      end
  end.

(** [int(s)] for a [str] of ASCII characters, whatever its length.  Python
    also reads decimal digits outside ASCII, and CPython refuses a literal
    of more than 4300 digits; neither is modelled. *)
Definition int (s : string) : Result Z :=
  let parsed :=
    match lstrip s with
    | String c r =>
        if Ascii.eqb c "-" then Z.opp <$> digits 0 false r
        else if Ascii.eqb c "+" then digits 0 false r
        else digits 0 false (String c r)
    | EmptyString => None
    end in
  match parsed with
  | Some z => Ok z
  | None => Raise (ValueError ("invalid literal for int() with base 10: '"
                               +:+ s +:+ "'"))
  end.

(** Truth value of an optional [str]: [None] and the empty string are false. *)
Definition truthy (o : option string) : bool :=
  match o with
  | Some (String _ _) => true
  | _ => false
  end.

(** [s.name] for a [str]: there is no such attribute. *)
Definition str_name (s : string) : Result string :=
  Raise (AttributeError "'str' object has no attribute 'name'").

End builtins.

(** ** The outbound HTTP client *)

Module httpx.

(** What [response.json()] finds: the value under ["explanation"] of a
    JSON object is a string or is absent. *)
Inductive Payload : Type :=
  | NotJson
  | NotObject
  | Object (explanation : option string).

Inductive Reply : Type :=
  | Unreachable (msg : string)
  | Response (status_code : Z) (body : Payload).

Definition is_success (c : Z) : bool := (200 <=? c) && (c <=? 299).

(** [response.raise_for_status()] *)
Definition raise_for_status (c : Z) : Result unit :=
  if is_success c then Ok tt
  else Raise (HTTPStatusError ("status " +:+ pretty c)).

(** [response.json().get("explanation", None)] *)
Definition json_get_explanation (p : Payload) : Result (option string) :=
  match p with
  | NotJson => Raise (ValueError "Expecting value")
  | NotObject => Raise (AttributeError "object has no attribute 'get'")
  | Object o => Ok o
  end.

End httpx.

(** ** Starlette responses *)

Module starlette.

(** The values the source passes as [content]. *)
Inductive Content : Type :=
  | CNone
  | CBytes (b : string)
  | CStr (s : string)
  | CDict (d : list (string * string)).

Record Response : Type := {
  status_code : Z;
  media_type : option string;
  body : string }.

(** [Response.render]: [None] is the empty body, [bytes] are kept, and
    anything else is sent [.encode(charset)], which a [dict] does not have. *)
Definition render (content : Content) : Result string :=
  match content with
  | CNone => Ok ""
  | CBytes b => Ok b
  | CStr s => Ok s
  | CDict _ => Raise (AttributeError "'dict' object has no attribute 'encode'")
  end.

(** [Response(content=..., status_code=..., media_type=...)]: the
    constructor renders the body. *)
Definition Response_init (content : Content) (status_code : Z)
    (media_type : option string) : Result Response :=
  match render content with
  | Ok b => Ok {| status_code := status_code; media_type := media_type; body := b |}
  | Raise e => Raise e
  end.

(** [fastapi.encoders.jsonable_encoder] on a [dict] of strings. *)
Definition jsonable_encoder (d : list (string * string)) : list (string * string) := d.

End starlette.

(** ** fetchRecentEmojis_service.py *)

Module fetchRecentEmojis_service.
Import prisma actions.

Record GetRecentEmojisRequest : Type := {}.

Record EmojiInfo : Type := {
  emoji : string;
  explanation : option string }.

Record RecentEmojisResponse : Type := { emojis : list EmojiInfo }.

Definition info (r : EmojiRequest) : EmojiInfo :=
  {| emoji := req_emoji (columns r); explanation := req_explanation (columns r) |}.

Definition fetchRecentEmojis (request : GetRecentEmojisRequest)
    : M RecentEmojisResponse :=
  let* recent_emojis := EmojiRequest_find_many "EXPLAINED" 10 in
  match recent_emojis with
  | [] => raise (HTTPException 404 "No recent emojis found.")
  | _ => ret {| emojis := info <$> recent_emojis |}
  end.

End fetchRecentEmojis_service.

(** ** fetchEmojiExplanation_service.py *)

Module fetchEmojiExplanation_service.
Import prisma actions.

Record GetEmojiExplanationResponse : Type := {
  emoji : string;
  explanation : option string }.

Definition fetchEmojiExplanation (emoji_id : string)
    : M GetEmojiExplanationResponse :=
  let* i := lift (builtins.int emoji_id) in
  let* emoji_record := EmojiExplanation_find_unique_id i in
  match emoji_record with
  | None => raise (ValueError ("No explanation found for emoji with id " +:+ emoji_id))
  | Some r => ret {| emoji := prisma.emoji (columns r);
                     explanation := Some (prisma.explanation (columns r)) |}
  end.

End fetchEmojiExplanation_service.

(** ** fetchExplanation_service.py *)

Module fetchExplanation_service.
Import prisma actions.

Record EmojiExplanationResponse : Type := {
  emoji : string;
  explanation : string }.

Definition fetchExplanation (id : string) : M EmojiExplanationResponse :=
  let* i := lift (builtins.int id) in
  let* emoji_explanation := EmojiExplanation_find_unique_id i in
  match emoji_explanation with
  | None => raise (ValueError "No explanation found with the provided ID.")
  | Some r => ret {| emoji := prisma.emoji (columns r);
                     explanation := prisma.explanation (columns r) |}
  end.

End fetchExplanation_service.

(** ** getUser_service.py *)

Module getUser_service.
Import prisma actions.

Record UserDetailResponse : Type := {
  username : string;
  roles : list string;
  creationDate : Z }.

(** [user.role] is the [str] that the client returned for the column, and
    the source asks it for [.name] before it computes the creation date. *)
Definition getUser (userId : Z) : M UserDetailResponse :=
  let* user := User_find_unique_with_requests userId in
  match user with
  | None => raise (ValueError "User not found.")
  | Some (u, requests) =>
      let username := email (columns u) in
      let* role_name := lift (builtins.str_name (Role_name (role (columns u)))) in
      let* creationDate :=
        match requests with
        | [] => datetime_now
        | r :: rs => ret (foldr Z.min (createdAt (columns r))
                                ((λ q, createdAt (columns q)) <$> rs))
        end in
      ret {| username := username;
             roles := [role_name];
             creationDate := creationDate |}
  end.

End getUser_service.

(** ** submitEmoji_service.py *)

Module submitEmoji_service.
Import prisma actions.

Record EmojiInterpretResponse : Type := {
  emoji : string;
  explanation : string }.

Definition url : string := "https://api.emojiinterpreter.example.com/interpret".

Section Interpreter.
(** The external interpretation service: its answer to a request, given
    everything that happened before. *)
Variable interpreter : list Event → string → httpx.Reply.

(** [client.post(url, json={"emoji": emoji})] *)
Definition post (emoji : string) : M (Z * httpx.Payload) :=
  λ w, match interpreter (trace w) emoji with
       | httpx.Unreachable m => bind (log (Post url emoji)) (λ _, raise (TransportError m)) w
       | httpx.Response c p => bind (log (Post url emoji)) (λ _, ret (c, p)) w
       end.

Definition call_emoji_interpretation_service (emoji : string) : M string :=
  let* response := post emoji in
  let* _ := lift (httpx.raise_for_status response.1) in
  let* interpreted_data := lift (httpx.json_get_explanation response.2) in
  if builtins.truthy interpreted_data then ret (default "" interpreted_data)
  else raise (ValueError "No interpretation was returned from the service.").

(** The result of the call is a [str], so the source's test
    [interpretation_result is not None] always holds and its [else]
    branch is never taken. *)
Definition submitEmoji (emoji : string) : M EmojiInterpretResponse :=
  let* interpretation_result := call_emoji_interpretation_service emoji in
  let* existing_explanation := EmojiExplanation_find_unique_emoji emoji in
  let* _ :=
    match existing_explanation with
    | None =>
        let* _ := EmojiExplanation_create
                    {| prisma.emoji := emoji;
                       prisma.explanation := interpretation_result |} in
        ret tt
    | Some _ => ret tt
    end in
  ret {| emoji := emoji; explanation := interpretation_result |}.
End Interpreter.

End submitEmoji_service.

(** ** systemHealthCheck_service.py *)

Module systemHealthCheck_service.

Record SystemStatusRequest : Type := {}.

(** [last_checked] keeps the instant; its ISO rendering is not modelled. *)
Record ComponentStatus : Type := {
  component_name : string;
  status : string;
  last_checked : Z }.

Record SystemStatusResponse : Type := {
  uptime : string;
  health : list (string * string);
  details : list ComponentStatus }.

Definition systemHealthCheck (request : SystemStatusRequest)
    : M SystemStatusResponse :=
  let* t1 := datetime_now in
  let* t2 := datetime_now in
  let component_details :=
    [ {| component_name := "Response Manager"; status := "Operational";
         last_checked := t1 |};
      {| component_name := "Emoji Interpreter"; status := "Operational";
         last_checked := t2 |} ] in
  let health_summary := (λ comp, (component_name comp, status comp)) <$> component_details in
  ret {| uptime := "72 hours"; health := health_summary; details := component_details |}.

End systemHealthCheck_service.

(** ** deleteUserRole_service.py *)

Module deleteUserRole_service.
Import prisma actions.

Record RemoveUserRoleResponse : Type := {
  success : bool;
  message : string }.

Definition deleteUserRole (user_id : Z) : M RemoveUserRoleResponse :=
  try_except
    (let* user := User_find_unique_id user_id in
     match user with
     | None => ret {| success := false; message := "User not found." |}
     | Some _ =>
         let* updated_user :=
           User_update user_id {| set_email := None; set_role := Some USER |} in
         ret {| success := true; message := "User role updated successfully." |}
     end)
    (λ e, ret {| success := false;
                 message := "Failed to update user role: " +:+ str e |}).

End deleteUserRole_service.

(** ** addUserRole_service.py *)

Module addUserRole_service.
Import prisma actions.

Record ManageUserRoleResponse : Type := {
  success : bool;
  message : string }.

(** The module declares a [Role] enum of its own, without members; the
    function uses its argument only through [new_role.value], which it
    passes to the client. *)
Definition addUserRole (user_id : Z) (new_role : Role) : M ManageUserRoleResponse :=
  let* user := User_find_unique_id user_id in
  match user with
  | None => ret {| success := false;
                   message := "No user found with ID " +:+ pretty user_id +:+ "." |}
  | Some _ =>
      try_except
        (let* _ := User_update user_id
                     {| set_email := None; set_role := Some new_role |} in
         ret {| success := true; message := "User role updated successfully." |})
        (λ e, ret {| success := false;
                     message := "Failed to update user role: " +:+ str e |})
  end.

End addUserRole_service.

(** ** updateUser_service.py *)

Module updateUser_service.
Import prisma actions.

(** The module's own [Role(Enum)]: its body holds two annotations
    ([ADMIN: str], [USER: str]) and no assignment, so the enum has no
    member. *)
Inductive Role : Type := .

(** The members with their values. *)
Definition Role_members : list (string * Role) := [].

(** pydantic validating a value for a field of type [Role]: the member
    with that value. *)
Definition Role_validate (value : string) : Result Role :=
  match List.find (λ m, String.eqb m.1 value) Role_members with
  | Some m => Ok m.2
  | None => Raise (ValidationError
                     "updated_user.role: value is not a valid enumeration member")
  end.

(** The module's own pydantic [User]. *)
Record User : Type := {
  id : Z;
  email : string;
  role : Role }.

(** pydantic validating the object that the client returned for a field
    of type [User]: field by field. *)
Definition User_validate (u : prisma.User) : Result User :=
  match Role_validate (Role_name (prisma.role (columns u))) with
  | Ok r => Ok {| id := prisma.id u; email := prisma.email (columns u); role := r |}
  | Raise e => Raise e
  end.

Record UpdateUserDetailsResponse : Type := {
  message : string;
  updated_user : User }.

(** [UpdateUserDetailsResponse(message=..., updated_user=...)]: the field
    [updated_user] is required, so pydantic refuses [None], and validates
    anything else as a [User]. *)
Definition UpdateUserDetailsResponse_init (message : string)
    (updated_user : option prisma.User) : Result UpdateUserDetailsResponse :=
  match updated_user with
  | None => Raise (ValidationError "updated_user: none is not an allowed value")
  | Some u =>
      match User_validate u with
      | Ok x => Ok {| message := message; updated_user := x |}
      | Raise e => Raise e
      end
  end.

(** The role, when given, goes to the client as it is. *)
Definition updateUser (userId : Z) (email : option string) (role : option prisma.Role)
    : M UpdateUserDetailsResponse :=
  let update_data := {| set_email := email; set_role := role |} in
  if bool_decide (is_Some email) || bool_decide (is_Some role) then
    let* updated_user := User_update userId update_data in
    lift (UpdateUserDetailsResponse_init "User details updated successfully."
                                         updated_user)
  else
    let* existing_user := User_find_unique_id userId in
    lift (UpdateUserDetailsResponse_init "No updates applied." existing_user).

End updateUser_service.

(** ** authenticateUser_service.py *)

Module authenticateUser_service.
Import prisma actions.

Record UserAuthenticationResponse : Type := {
  jwt : string;
  error : option string }.

Definition authenticateUser (username password : string)
    : M UserAuthenticationResponse :=
  let* user := User_find_unique_email username in
  match user with
  | None => ret {| jwt := ""; error := Some "Invalid username or password" |}
  | Some u =>
      if negb (String.eqb (prisma.password (columns u)) password) then
        ret {| jwt := ""; error := Some "Invalid username or password" |}
      else
        let token := "example_token_for_" +:+ pretty (id u) in
        ret {| jwt := token; error := None |}
  end.

End authenticateUser_service.

(** ** getApiHealth_service.py *)

Module getApiHealth_service.
Import prisma actions.

Record HealthCheckRequest : Type := {}.

Record HealthCheckResponse : Type := {
  status : string;
  message : string }.

Definition getApiHealth (request : HealthCheckRequest) : M HealthCheckResponse :=
  try_except
    (let* emoji_requests := EmojiRequest_count in
     if 0 <=? emoji_requests then
       ret {| status := "UP";
              message := "API Gateway is running and accepting requests." |}
     else
       ret {| status := "UNKNOWN"; message := "Unable to determine the status." |})
    (λ e, ret {| status := "DOWN"; message := str e |}).

End getApiHealth_service.

(** ** createUser_service.py *)

Module createUser_service.
Import prisma actions.

(** The module's own [Role(Enum)]: its body holds two annotations
    ([ADMIN: str], [USER: str]) and no assignment, so the enum has no
    member. *)
Inductive Role : Type := .

(** The members by name. *)
Definition Role_members : list (string * Role) := [].

(** [Role[name]] *)
Definition Role_getitem (name : string) : Result Role :=
  match List.find (λ m, String.eqb m.1 name) Role_members with
  | Some m => Ok m.2
  | None => Raise (KeyError name)
  end.

Record CreateUserResponse : Type := {
  id : Z;
  username : string;
  role : Role }.

Section Bcrypt.
(** [bcrypt.gensalt()] draws a salt; [bcrypt.hashpw] hashes a password
    with it, or refuses the password. *)
Variable gensalt : list Event → string.
Variable hashpw : string → string → Result string.

(** The argument is used through [role.name], which is stored; the
    response is built from the row just stored, with [Role[user.role]]
    for its role. *)
Definition createUser (username password : string) (role : prisma.Role)
    : M CreateUserResponse :=
  let* salt := (λ w, (Ok (gensalt (trace w)), w)) in
  let* hashed_password := lift (hashpw password salt) in
  let* user := User_create {| prisma.email := username;
                              prisma.password := hashed_password;
                              prisma.role := role |} in
  let* user_role := lift (Role_getitem (Role_name (prisma.role (columns user)))) in
  ret {| id := prisma.id user;
         username := prisma.email (columns user);
         role := user_role |}.
End Bcrypt.

End createUser_service.

(** ** server.py *)

Module server.
Import starlette.

(** What a service returns: one response model per handler. *)
Inductive ResponseModel : Type :=
  | RecentEmojis (r : fetchRecentEmojis_service.RecentEmojisResponse)
  | GetEmojiExplanation (r : fetchEmojiExplanation_service.GetEmojiExplanationResponse)
  | UserDetail (r : getUser_service.UserDetailResponse)
  | EmojiInterpret (r : submitEmoji_service.EmojiInterpretResponse)
  | SystemStatus (r : systemHealthCheck_service.SystemStatusResponse)
  | RemoveUserRole (r : deleteUserRole_service.RemoveUserRoleResponse)
  | EmojiExplanation (r : fetchExplanation_service.EmojiExplanationResponse)
  | ManageUserRole (r : addUserRole_service.ManageUserRoleResponse)
  | DeleteUser (r : deleteUser_service.DeleteUserResponse)
  | UpdateUserDetails (r : updateUser_service.UpdateUserDetailsResponse)
  | UserAuthentication (r : authenticateUser_service.UserAuthenticationResponse)
  | HealthCheck (r : getApiHealth_service.HealthCheckResponse)
  | CreateUser (r : createUser_service.CreateUserResponse).

(** A handler returns its model or a [Response] built by hand. *)
Inductive Returned : Type :=
  | Model (m : ResponseModel)
  | Direct (r : Response).

(** [res = dict(); res["error"] = str(e)] *)
Definition error_dict (e : exn) : list (string * string) := [("error", str e)].

(** The body shared by the thirteen handlers:
    [try: res = await service(...); return res
     except Exception as e: ... return Response(content=jsonable_encoder(res),
     status_code=500, media_type="application/json")] *)
Definition guarded (service : M ResponseModel) : M Returned :=
  try_except
    (let* res := service in ret (Model res))
    (λ e,
       let res := error_dict e in
       let* r := lift (Response_init (CDict (jsonable_encoder res)) 500
                                     (Some "application/json")) in
       ret (Direct r)).

Definition as_model {A} (wrap : A → ResponseModel) (c : M A) : M ResponseModel :=
  let* a := c in ret (wrap a).

(** One call of one handler, with its arguments. *)
Inductive Call : Type :=
  | fetchRecentEmojis (request : fetchRecentEmojis_service.GetRecentEmojisRequest)
  | fetchEmojiExplanation (emoji_id : string)
  | getUser (userId : Z)
  | submitEmoji (emoji : string)
  | systemHealthCheck (request : systemHealthCheck_service.SystemStatusRequest)
  | deleteUserRole (user_id : Z)
  | fetchExplanation (id : string)
  | addUserRole (user_id : Z) (new_role : prisma.Role)
  | deleteUser (userId approverId : Z)
  | updateUser (userId : Z) (email : option string) (role : option prisma.Role)
  | authenticateUser (username password : string)
  | getApiHealth (request : getApiHealth_service.HealthCheckRequest)
  | createUser (username password : string) (role : prisma.Role).

Section Environment.
Variable interpreter : list Event → string → httpx.Reply.
Variable gensalt : list Event → string.
Variable hashpw : string → string → Result string.

Definition api_get_fetchRecentEmojis request : M Returned :=
  guarded (as_model RecentEmojis (fetchRecentEmojis_service.fetchRecentEmojis request)).

Definition api_get_fetchEmojiExplanation (emoji_id : string) : M Returned :=
  guarded (as_model GetEmojiExplanation
             (fetchEmojiExplanation_service.fetchEmojiExplanation emoji_id)).

Definition api_get_getUser (userId : Z) : M Returned :=
  guarded (as_model UserDetail (getUser_service.getUser userId)).

Definition api_post_submitEmoji (emoji : string) : M Returned :=
  guarded (as_model EmojiInterpret (submitEmoji_service.submitEmoji interpreter emoji)).

Definition api_get_systemHealthCheck request : M Returned :=
  guarded (as_model SystemStatus (systemHealthCheck_service.systemHealthCheck request)).

Definition api_delete_deleteUserRole (user_id : Z) : M Returned :=
  guarded (as_model RemoveUserRole (deleteUserRole_service.deleteUserRole user_id)).

Definition api_get_fetchExplanation (id : string) : M Returned :=
  guarded (as_model EmojiExplanation (fetchExplanation_service.fetchExplanation id)).

Definition api_post_addUserRole (user_id : Z) (new_role : prisma.Role) : M Returned :=
  guarded (as_model ManageUserRole (addUserRole_service.addUserRole user_id new_role)).

Definition api_delete_deleteUser (userId approverId : Z) : M Returned :=
  guarded (as_model DeleteUser (deleteUser_service.deleteUser userId approverId)).

Definition api_put_updateUser (userId : Z) (email : option string)
    (role : option prisma.Role) : M Returned :=
  guarded (as_model UpdateUserDetails (updateUser_service.updateUser userId email role)).

Definition api_post_authenticateUser (username password : string) : M Returned :=
  guarded (as_model UserAuthentication
             (authenticateUser_service.authenticateUser username password)).

Definition api_get_getApiHealth request : M Returned :=
  guarded (as_model HealthCheck (getApiHealth_service.getApiHealth request)).

Definition api_post_createUser (username password : string) (role : prisma.Role)
    : M Returned :=
  guarded (as_model CreateUser
             (createUser_service.createUser gensalt hashpw username password role)).

(** The service function under each handler. *)
Definition service (c : Call) : M ResponseModel :=
  match c with
  | fetchRecentEmojis r =>
      as_model RecentEmojis (fetchRecentEmojis_service.fetchRecentEmojis r)
  | fetchEmojiExplanation i =>
      as_model GetEmojiExplanation (fetchEmojiExplanation_service.fetchEmojiExplanation i)
  | getUser u => as_model UserDetail (getUser_service.getUser u)
  | submitEmoji e =>
      as_model EmojiInterpret (submitEmoji_service.submitEmoji interpreter e)
  | systemHealthCheck r =>
      as_model SystemStatus (systemHealthCheck_service.systemHealthCheck r)
  | deleteUserRole u => as_model RemoveUserRole (deleteUserRole_service.deleteUserRole u)
  | fetchExplanation i =>
      as_model EmojiExplanation (fetchExplanation_service.fetchExplanation i)
  | addUserRole u r => as_model ManageUserRole (addUserRole_service.addUserRole u r)
  | deleteUser u a => as_model DeleteUser (deleteUser_service.deleteUser u a)
  | updateUser u e r => as_model UpdateUserDetails (updateUser_service.updateUser u e r)
  | authenticateUser u p =>
      as_model UserAuthentication (authenticateUser_service.authenticateUser u p)
  | getApiHealth r => as_model HealthCheck (getApiHealth_service.getApiHealth r)
  | createUser u p r =>
      as_model CreateUser (createUser_service.createUser gensalt hashpw u p r)
  end.

(** The handler a call runs. *)
Definition handle (c : Call) : M Returned :=
  match c with
  | fetchRecentEmojis r => api_get_fetchRecentEmojis r
  | fetchEmojiExplanation i => api_get_fetchEmojiExplanation i
  | getUser u => api_get_getUser u
  | submitEmoji e => api_post_submitEmoji e
  | systemHealthCheck r => api_get_systemHealthCheck r
  | deleteUserRole u => api_delete_deleteUserRole u
  | fetchExplanation i => api_get_fetchExplanation i
  | addUserRole u r => api_post_addUserRole u r
  | deleteUser u a => api_delete_deleteUser u a
  | updateUser u e r => api_put_updateUser u e r
  | authenticateUser u p => api_post_authenticateUser u p
  | getApiHealth r => api_get_getApiHealth r
  | createUser u p r => api_post_createUser u p r
  end.
End Environment.

(** *** What the client receives *)

Inductive Body : Type :=
  | Json (m : ResponseModel)
  | Detail (d : string)
  | Raw (s : string).

Record HttpReply : Type := {
  reply_status : Z;
  reply_media_type : option string;
  reply_body : Body }.

(** FastAPI serialises a returned model with status 200 and sends a
    returned [Response] as it is; an [HTTPException] that leaves a handler
    is answered with its own status code, and any other exception that
    leaves it is answered by the server-error middleware. *)
Definition respond (r : Result Returned) : HttpReply :=
  match r with
  | Ok (Model m) =>
      {| reply_status := 200; reply_media_type := Some "application/json";
         reply_body := Json m |}
  | Ok (Direct d) =>
      {| reply_status := status_code d; reply_media_type := media_type d;
         reply_body := Raw (body d) |}
  | Raise (HTTPException c d) =>
      {| reply_status := c; reply_media_type := Some "application/json";
         reply_body := Detail d |}
  | Raise _ =>
      {| reply_status := 500; reply_media_type := Some "text/plain; charset=utf-8";
         reply_body := Raw "Internal Server Error" |}
  end.

(** *** The route table *)

Inductive Method : Type := GET | POST | PUT | DELETE.

#[global] Instance Method_eq_dec : EqDecision Method.
Proof. solve_decision. Defined.

Inductive Segment : Type :=
  | Lit (s : string)
  | Param (name : string).

Inductive Endpoint : Type :=
  | route_fetchRecentEmojis
  | route_fetchEmojiExplanation
  | route_getUser
  | route_submitEmoji
  | route_systemHealthCheck
  | route_deleteUserRole
  | route_fetchExplanation
  | route_addUserRole
  | route_deleteUser
  | route_updateUser
  | route_authenticateUser
  | route_getApiHealth
  | route_createUser.

#[global] Instance Endpoint_eq_dec : EqDecision Endpoint.
Proof. solve_decision. Defined.

Record Route : Type := {
  method : Method;
  pattern : list Segment;
  endpoint : Endpoint }.

(** The decorators of [server.py], in the order they register. *)
Definition routes : list Route :=
  [ {| method := GET; pattern := [Lit "emojis"; Lit "recent"];
       endpoint := route_fetchRecentEmojis |};
    {| method := GET; pattern := [Lit "emoji"; Lit "explanation"; Param "emoji_id"];
       endpoint := route_fetchEmojiExplanation |};
    {| method := GET; pattern := [Lit "users"; Param "userId"];
       endpoint := route_getUser |};
    {| method := POST; pattern := [Lit "emoji"; Lit "interpret"];
       endpoint := route_submitEmoji |};
    {| method := GET; pattern := [Lit "system"; Lit "status"];
       endpoint := route_systemHealthCheck |};
    {| method := DELETE; pattern := [Lit "admin"; Lit "user-role"; Param "user_id"];
       endpoint := route_deleteUserRole |};
    {| method := GET; pattern := [Lit "emoji"; Lit "explanation"; Param "id"];
       endpoint := route_fetchExplanation |};
    {| method := POST; pattern := [Lit "admin"; Lit "user-role"];
       endpoint := route_addUserRole |};
    {| method := DELETE; pattern := [Lit "users"; Param "userId"];
       endpoint := route_deleteUser |};
    {| method := PUT; pattern := [Lit "users"; Param "userId"];
       endpoint := route_updateUser |};
    {| method := POST; pattern := [Lit "users"; Lit "authenticate"];
       endpoint := route_authenticateUser |};
    {| method := GET; pattern := [Lit "health"];
       endpoint := route_getApiHealth |};
    {| method := POST; pattern := [Lit "users"];
       endpoint := route_createUser |} ].

(** A path, split at its slashes, against a pattern: a parameter takes one
    non-empty segment. *)
Fixpoint matches (pattern : list Segment) (path : list string) : bool :=
  match pattern, path with
  | [], [] => true
  | Lit s :: p, x :: xs => String.eqb s x && matches p xs
  | Param _ :: p, x :: xs => negb (String.eqb x "") && matches p xs
  | _, _ => false
  end.

(** The router takes the first route that matches path and method. *)
Definition resolve (m : Method) (path : list string) : option Endpoint :=
  endpoint <$> List.find (λ r, bool_decide (method r = m) && matches (pattern r) path)
                         routes.

(** A pattern without the names of its parameters. *)
Definition shape (p : list Segment) : list (option string) :=
  (λ s, match s with Lit l => Some l | Param _ => None end) <$> p.

End server.

(** ** Vocabulary of the statements *)

(** The world after a run that added [evs] to the trace and left the rest. *)
Definition grow (w : World) (evs : list Event) : World :=
  {| db := db w; trace := trace w ++ evs; now := now w |}.

(** The world after a run that added [evs] and left the store as [s]. *)
Definition with_db (s : prisma.Store) (w : World) (evs : list Event) : World :=
  {| db := s; trace := trace w ++ evs; now := now w |}.

(** The events a run from [w] to [w'] added. *)
Definition new_events (w w' : World) : list Event :=
  drop (length (trace w)) (trace w').

(** The outbound call did not deliver an interpretation: no answer, an
    answer outside 2xx, or a body without a non-empty ["explanation"]. *)
Definition failed (r : httpx.Reply) : bool :=
  match r with
  | httpx.Unreachable _ => true
  | httpx.Response c p =>
      negb (httpx.is_success c) ||
      match p with
      | httpx.Object o => negb (builtins.truthy o)
      | _ => true
      end
  end.

Definition calls_interpreter (c : server.Call) : bool :=
  match c with server.submitEmoji _ => true | _ => false end.

Definition is_deleteUser (c : server.Call) : bool :=
  match c with server.deleteUser _ _ => true | _ => false end.

(** The reading of the handler summary under which a request is either up to
    three data-store operations or one outbound call, never both. *)
Definition either_store_or_call (evs : list Event) : Prop :=
  (posts evs = 0%nat ∧ (queries evs ≤ 3)%nat) ∨
  (posts evs = 1%nat ∧ queries evs = 0%nat).

(** Two lookups agree: both return the same two fields, or both raise a
    [ValueError]. *)
Definition same_outcome
    (a : Result fetchEmojiExplanation_service.GetEmojiExplanationResponse)
    (b : Result fetchExplanation_service.EmojiExplanationResponse) : Prop :=
  match a, b with
  | Ok x, Ok y =>
      fetchEmojiExplanation_service.emoji x = fetchExplanation_service.emoji y ∧
      fetchEmojiExplanation_service.explanation x
        = Some (fetchExplanation_service.explanation y)
  | Raise e1, Raise e2 => is_ValueError e1 = true ∧ is_ValueError e2 = true
  | _, _ => False
  end.

(** The two answers of [deleteUser] that refuse a deletion. *)
Definition refusal (approver_ok : bool) : deleteUser_service.DeleteUserResponse :=
  {| deleteUser_service.status := "error";
     deleteUser_service.message :=
       if approver_ok then "Cannot delete an admin user."
       else "Approver is not authorized or does not exist." |}.

(** The approver exists and is an administrator. *)
Definition authorized (s : prisma.Store) (approverId : Z) : bool :=
  match prisma.User_table s !! approverId with
  | Some a => bool_decide (prisma.role a = prisma.ADMIN)
  | None => false
  end.

(** What [find_many] selects for the recent emojis: the explained requests,
    newest first. *)
Definition explained (s : prisma.Store) : list prisma.EmojiRequest :=
  merge_sort actions.newer_first
    (List.filter (λ r : prisma.EmojiRequest,
                    String.eqb (prisma.status (prisma.columns r)) "EXPLAINED")
                 (prisma.rows (prisma.EmojiRequest_table s))).

(** The world after a sequence of requests, one after the other. *)
Fixpoint run_all (interpreter : list Event → string → httpx.Reply)
    (gensalt : list Event → string) (hashpw : string → string → Result string)
    (cs : list server.Call) (w : World) : World :=
  match cs with
  | [] => w
  | c :: cs' => run_all interpreter gensalt hashpw cs'
                  (server.handle interpreter gensalt hashpw c w).2
  end.

(** Row [i], while it exists, holds [h] in its password column, and the key
    sequence is past [i]. *)
Definition keeps_hash (i : Z) (h : string) (s : prisma.Store) : Prop :=
  i < prisma.User_seq s ∧
  ∀ r, prisma.User_table s !! i = Some r → prisma.password r = h.

(** ** Worlds used as examples *)

Module examples.
Import prisma.

Definition root : UserRow := {| email := "root@example.com"; password := "r00t"; role := ADMIN |}.
Definition bob : UserRow := {| email := "bob@example.com"; password := "b0b"; role := USER |}.

Definition grin : EmojiExplanationRow :=
  {| emoji := "grin"; explanation := "A grinning face." |}.

Definition request (u : Z) (e : string) (st : string) (t : Z) : EmojiRequestRow :=
  {| userId := u; req_emoji := e; req_explanation := Some "seen"; status := st;
     createdAt := t |}.

(** No rows at all. *)
Definition empty_store : Store :=
  {| User_table := ∅; User_seq := 1;
     EmojiExplanation_table := ∅; EmojiExplanation_seq := 1;
     EmojiRequest_table := ∅ |}.

(** An administrator (1), a plain user (2), one explanation and three
    requests. *)
Definition small_store : Store :=
  {| User_table := <[1 := root]> (<[2 := bob]> ∅); User_seq := 3;
     EmojiExplanation_table := <[1 := grin]> ∅; EmojiExplanation_seq := 2;
     EmojiRequest_table :=
       <[1 := request 2 "grin" "EXPLAINED" 10]>
         (<[2 := request 2 "wave" "PENDING" 20]>
            (<[3 := request 2 "star" "EXPLAINED" 30]> ∅)) |}.

Definition empty_world : World := {| db := empty_store; trace := []; now := 1000 |}.
Definition small_world : World := {| db := small_store; trace := []; now := 1000 |}.

(** An interpretation service that always answers, one that is down. *)
Definition helpful : list Event → string → httpx.Reply :=
  λ _ e, httpx.Response 200 (httpx.Object (Some ("meaning of " +:+ e))).
Definition broken : list Event → string → httpx.Reply :=
  λ _ _, httpx.Response 503 httpx.NotJson.

Definition salt : list Event → string := λ _, "0123456789abcdefghijkl".
Definition hash : string → string → Result string :=
  λ p s, Ok ("$2b$12$" +:+ s +:+ p).
End examples.

(** Every request row belongs to a user that exists. *)
Definition requests_have_users (s : prisma.Store) : Prop :=
  ∀ k q, prisma.EmojiRequest_table s !! k = Some q →
         is_Some (prisma.User_table s !! prisma.userId q).

(** The handlers that only read. *)
Definition read_only (c : server.Call) : bool :=
  match c with
  | server.fetchRecentEmojis _ | server.fetchEmojiExplanation _ | server.getUser _
  | server.systemHealthCheck _ | server.fetchExplanation _
  | server.authenticateUser _ _ | server.getApiHealth _ => true
  | _ => false
  end.

(** No row other than [i] has the email [e]. *)
Definition only_user_with_email (s : prisma.Store) (i : Z) (e : string) : Prop :=
  ∀ j r, prisma.User_table s !! j = Some r → prisma.email r = e → j = i.

(** What the outbound call delivers when it does not fail. *)
Definition answer (r : httpx.Reply) : option string :=
  match r with
  | httpx.Response c (httpx.Object (Some x)) =>
      if httpx.is_success c && builtins.truthy (Some x) then Some x else None
  | _ => None
  end.

Module more_examples.
Import prisma.

Definition ann : UserRow := {| email := "ann@example.com"; password := "4nn"; role := ADMIN |}.

(** Two administrators (1 and 3) and nothing else. *)
Definition staff_store : Store :=
  {| User_table := <[1 := examples.root]> (<[3 := ann]> ∅); User_seq := 4;
     EmojiExplanation_table := ∅; EmojiExplanation_seq := 1;
     EmojiRequest_table := ∅ |}.

Definition staff_world : World := {| db := staff_store; trace := []; now := 1000 |}.
End more_examples.


(** * Runs of the client actions *)

Section Actions.
Import prisma actions.
Implicit Types (w : World) (i : Z).

Lemma grow_grow w a b : grow (grow w a) b = grow w (a ++ b).
Proof. unfold grow; simpl. by rewrite <- app_assoc. Qed.

Lemma bind_run {A B} (c : M A) (k : A → M B) w a w' :
  c w = (Ok a, w') → bind c k w = k a w'.
Proof. unfold bind. by intros ->. Qed.

Lemma User_find_unique_id_run i w :
  User_find_unique_id i w =
  (Ok ((λ r, {| id := i; columns := r |}) <$> User_table (db w) !! i),
   grow w [Query "User" "find_unique"]).
Proof. reflexivity. Qed.

Lemma User_find_unique_email_run e w :
  User_find_unique_email e w =
  (Ok (find_by (λ r, String.eqb (email r) e) (User_table (db w))),
   grow w [Query "User" "find_unique"]).
Proof. reflexivity. Qed.

Lemma EmojiRequest_delete_many_run u w :
  EmojiRequest_delete_many u w =
    (Ok (Z.of_nat (size (filter (λ kv, userId kv.2 = u) (EmojiRequest_table (db w))))),
     with_db (set_requests (filter (λ kv, userId kv.2 ≠ u) (EmojiRequest_table (db w)))
                           (db w))
             w [Query "EmojiRequest" "delete_many"]).
Proof. reflexivity. Qed.

Lemma User_delete_run i w :
  User_delete i w =
    match User_table (db w) !! i with
    | None => (Ok None, grow w [Query "User" "delete"])
    | Some r => (Ok (Some {| id := i; columns := r |}),
                 with_db (set_users (delete i (User_table (db w))) (User_seq (db w)) (db w))
                         w [Query "User" "delete"])
    end.
Proof.
  unfold User_delete, bind, log, get_db; simpl.
  destruct (User_table (db w) !! i); reflexivity.
Qed.

Lemma User_update_run i d w :
  User_update i d w =
    match User_table (db w) !! i with
    | None => (Ok None, grow w [Query "User" "update"])
    | Some r =>
        match find_by (λ o, String.eqb (email o) (email (apply_update d r)))
                      (delete i (User_table (db w))) with
        | Some _ => (Raise (UniqueViolationError "Unique constraint failed"),
                     grow w [Query "User" "update"])
        | None => (Ok (Some {| id := i; columns := apply_update d r |}),
                   with_db (set_users (<[i := apply_update d r]> (User_table (db w)))
                                      (User_seq (db w)) (db w))
                           w [Query "User" "update"])
        end
    end.
Proof.
  unfold User_update, bind, log, get_db; simpl.
  destruct (User_table (db w) !! i); [|reflexivity].
  destruct (find_by _ _); reflexivity.
Qed.

Lemma User_create_run r w :
  User_create r w =
    match find_by (λ r', String.eqb (email r') (email r)) (User_table (db w)),
          User_table (db w) !! User_seq (db w) with
    | None, None =>
        (Ok {| id := User_seq (db w); columns := r |},
         with_db (set_users (<[User_seq (db w) := r]> (User_table (db w)))
                            (User_seq (db w) + 1) (db w))
                 w [Query "User" "create"])
    | _, _ => (Raise (UniqueViolationError "Unique constraint failed"),
               grow w [Query "User" "create"])
    end.
Proof.
  unfold User_create, bind, log, get_db; simpl.
  destruct (find_by _ _); [reflexivity|].
  destruct (User_table (db w) !! _); reflexivity.
Qed.

Lemma EmojiExplanation_find_unique_id_run i w :
  EmojiExplanation_find_unique_id i w =
  (Ok ((λ r, {| id := i; columns := r |}) <$> EmojiExplanation_table (db w) !! i),
   grow w [Query "EmojiExplanation" "find_unique"]).
Proof. reflexivity. Qed.

Lemma EmojiRequest_find_many_run st n w :
  EmojiRequest_find_many st n w =
  (Ok (take n (merge_sort newer_first
         (List.filter (λ r : EmojiRequest, String.eqb (status (columns r)) st)
                      (rows (EmojiRequest_table (db w)))))),
   grow w [Query "EmojiRequest" "find_many"]).
Proof. reflexivity. Qed.

End Actions.

Section DeleteUser.
Import prisma actions deleteUser_service.

Lemma deleteUser_run userId approverId w :
  deleteUser userId approverId w =
    if authorized (db w) approverId then
      match User_table (db w) !! userId with
      | None => (Ok {| status := "error"; message := "User does not exist." |},
                 grow w [Query "User" "find_unique"; Query "User" "find_unique"])
      | Some u =>
          if bool_decide (role u = ADMIN) then
            (Ok (refusal true),
             grow w [Query "User" "find_unique"; Query "User" "find_unique"])
          else
            (Ok {| status := "success"; message := "User successfully deleted." |},
             with_db (set_users (delete userId (User_table (db w))) (User_seq (db w))
                        (set_requests (filter (λ kv, prisma.userId kv.2 ≠ userId)
                                              (EmojiRequest_table (db w))) (db w)))
                     w [Query "User" "find_unique"; Query "User" "find_unique";
                        Query "EmojiRequest" "delete_many"; Query "User" "delete"])
      end
    else (Ok (refusal false), grow w [Query "User" "find_unique"]).
Proof.
  unfold deleteUser, authorized.
  rewrite (bind_run _ _ _ _ _ (User_find_unique_id_run _ _)).
  destruct (User_table (db w) !! approverId) as [a|] eqn:Ea; simpl; [|reflexivity].
  destruct (decide (role a = ADMIN)) as [Hr|Hr].
  2:{ rewrite (bool_decide_true (role a ≠ ADMIN)) by done.
      rewrite (bool_decide_false (role a = ADMIN)) by done. reflexivity. }
  rewrite (bool_decide_false (role a ≠ ADMIN)) by (intros ?; done).
  rewrite (bool_decide_true (role a = ADMIN)) by done.
  rewrite (bind_run _ _ _ _ _ (User_find_unique_id_run _ _)).
  change (db (grow w _)) with (db w).
  destruct (User_table (db w) !! userId) as [u|] eqn:Eu; simpl.
  2:{ by rewrite grow_grow. }
  case_bool_decide; simpl.
  { by rewrite grow_grow. }
  rewrite (bind_run _ _ _ _ _ (EmojiRequest_delete_many_run _ _)).
  unfold bind at 1. rewrite User_delete_run. simpl. rewrite Eu.
  unfold ret, with_db, grow; simpl. rewrite <- !app_assoc. reflexivity.
Qed.
End DeleteUser.

(** * The handler wrapper *)

Section Wrapper.
Import server starlette.
Variable interpreter : list Event → string → httpx.Reply.
Variable gensalt : list Event → string.
Variable hashpw : string → string → Result string.

Lemma handle_guarded c :
  handle interpreter gensalt hashpw c = guarded (service interpreter gensalt hashpw c).
Proof. by destruct c. Qed.

Lemma guarded_run (svc : M ResponseModel) w :
  guarded svc w =
    match svc w with
    | (Ok m, w') => (Ok (Model m), w')
    | (Raise e, w') =>
        (Raise (AttributeError "'dict' object has no attribute 'encode'"), w')
    end.
Proof.
  unfold guarded, try_except, bind, ret, lift.
  destruct (svc w) as [[m|e] w']; reflexivity.
Qed.

Lemma guarded_world (svc : M ResponseModel) w : (guarded svc w).2 = (svc w).2.
Proof. rewrite guarded_run. by destruct (svc w) as [[m|e] w']. Qed.

Lemma as_model_run {A} (wrap : A → ResponseModel) (c : M A) w :
  as_model wrap c w =
    match c w with
    | (Ok a, w') => (Ok (wrap a), w')
    | (Raise e, w') => (Raise e, w')
    end.
Proof. reflexivity. Qed.

Lemma as_model_world {A} (wrap : A → ResponseModel) (c : M A) w :
  (as_model wrap c w).2 = (c w).2.
Proof. rewrite as_model_run. by destruct (c w) as [[a|e] w']. Qed.
End Wrapper.

(** Runs a handler symbolically: unfolds the monad and splits on every
    lookup and test on the way. *)
Ltac exec :=
  repeat first
    [ progress (unfold bind, ret, raise, lift, try_except, log, get_db, put_db,
                datetime_now)
    | progress simpl
    | case_match; simplify_eq/= ].

(** Unfolds the thirteen services and the client actions under them. *)
Ltac open_services :=
  unfold fetchRecentEmojis_service.fetchRecentEmojis,
    fetchEmojiExplanation_service.fetchEmojiExplanation,
    getUser_service.getUser, submitEmoji_service.submitEmoji,
    submitEmoji_service.call_emoji_interpretation_service, submitEmoji_service.post,
    systemHealthCheck_service.systemHealthCheck,
    deleteUserRole_service.deleteUserRole,
    fetchExplanation_service.fetchExplanation,
    addUserRole_service.addUserRole,
    deleteUser_service.deleteUser,
    updateUser_service.updateUser,
    authenticateUser_service.authenticateUser,
    getApiHealth_service.getApiHealth,
    createUser_service.createUser, createUser_service.Role_getitem,
    updateUser_service.UpdateUserDetailsResponse_init, updateUser_service.User_validate,
    updateUser_service.Role_validate, builtins.str_name,
    actions.EmojiRequest_find_many, actions.EmojiExplanation_find_unique_id,
    actions.User_find_unique_with_requests, actions.EmojiExplanation_find_unique_emoji,
    actions.EmojiExplanation_create, actions.User_find_unique_id, actions.User_update,
    actions.EmojiRequest_delete_many, actions.User_delete,
    actions.User_find_unique_email, actions.EmojiRequest_count, actions.User_create.

(** * What every handler does to the trace and to the users *)

Section EveryHandler.
Import server.
Variable interpreter : list Event → string → httpx.Reply.
Variable gensalt : list Event → string.
Variable hashpw : string → string → Result string.

Abbreviation service := (service interpreter gensalt hashpw).
Abbreviation handle := (handle interpreter gensalt hashpw).

Lemma drop_trace (tr a : list Event) : drop (length tr) (tr ++ a) = a.
Proof. apply drop_app_length. Qed.

Lemma drop_trace_nil (tr : list Event) : drop (length tr) tr = [].
Proof. apply drop_all. Qed.

Lemma handle_world c w : (handle c w).2 = (service c w).2.
Proof. rewrite handle_guarded. apply guarded_world. Qed.

Lemma service_events c w :
  let evs := new_events w (service c w).2 in
  posts evs = (if calls_interpreter c then 1 else 0)%nat ∧
  (queries evs ≤ if is_deleteUser c then 4 else 2)%nat.
Proof.
  destruct c; unfold server.service; rewrite as_model_world; unfold new_events,
    calls_interpreter, is_deleteUser.
  all: open_services; exec.
  all: rewrite <- ?app_assoc, ?drop_trace, ?drop_trace_nil; unfold posts, queries; simpl;
    split; lia.
Qed.

(** A row of an administrator is still there after any service ran. *)
Lemma service_keeps_admins c w i u :
  prisma.User_table (db w) !! i = Some u → prisma.role u = prisma.ADMIN →
  is_Some (prisma.User_table (db (service c w).2) !! i).
Proof.
  intros Hu Hadmin.
  destruct c; unfold server.service; rewrite as_model_world.
  all: open_services; exec.
  all: rewrite ?lookup_insert, ?lookup_delete; repeat case_decide; simplify_eq/=; eauto.
Qed.

(** Apart from [deleteUser], no service removes a row of [User]. *)
Lemma service_keeps_users c w i :
  is_deleteUser c = false →
  is_Some (prisma.User_table (db w) !! i) →
  is_Some (prisma.User_table (db (service c w).2) !! i).
Proof.
  intros Hc [u Hu].
  destruct c; try discriminate Hc; unfold server.service; rewrite as_model_world.
  all: open_services; exec.
  all: rewrite ?lookup_insert; repeat case_decide; simplify_eq/=; eauto.
Qed.
End EveryHandler.

(** * deleteUser *)

Section DeleteUserClaims.
Import prisma deleteUser_service.

(** C3.  When the approver does not exist or is not an administrator,
    [deleteUser] answers with status "error" and the message "Approver is
    not authorized or does not exist.", and the world after it differs
    from the world before only by the one lookup of the approver in the
    trace: no row is deleted or changed. *)
Theorem deleteUser_unauthorized_approver (w : World) (userId approverId : Z) :
  (User_table (db w) !! approverId = None ∨
   ∃ a, User_table (db w) !! approverId = Some a ∧ role a ≠ ADMIN) →
  deleteUser userId approverId w =
    (Ok {| status := "error";
           message := "Approver is not authorized or does not exist." |},
     grow w [Query "User" "find_unique"]).
Proof.
  intros H. rewrite deleteUser_run.
  assert (authorized (db w) approverId = false) as ->; [|reflexivity].
  unfold authorized. destruct H as [-> | (a & -> & Ha)]; [reflexivity|].
  by apply bool_decide_false.
Qed.

(** C2, as amended.  In every state of the store: when the target row
    exists and is an administrator, [deleteUser] answers with status
    "error" and leaves the store as it was, and the message is "Cannot
    delete an admin user." when the approver is an administrator and the
    approver message otherwise; every handler keeps the row of an
    administrator; and no handler other than [deleteUser] removes any row
    of [User], whatever the roles in the store. *)
Theorem admin_row_is_never_deleted (w : World) :
  (∀ i u approverId,
     User_table (db w) !! i = Some u → role u = ADMIN →
     deleteUser i approverId w =
       (Ok (refusal (authorized (db w) approverId)),
        grow w (if authorized (db w) approverId
                then [Query "User" "find_unique"; Query "User" "find_unique"]
                else [Query "User" "find_unique"]))) ∧
  (∀ interpreter gensalt hashpw c i u,
     User_table (db w) !! i = Some u → role u = ADMIN →
     is_Some (User_table (db (server.handle interpreter gensalt hashpw c w).2) !! i)) ∧
  (∀ interpreter gensalt hashpw c j,
     is_deleteUser c = false →
     is_Some (User_table (db w) !! j) →
     is_Some (User_table (db (server.handle interpreter gensalt hashpw c w).2) !! j)).
Proof.
  split; [|split].
  - intros i u approverId Hu Hadmin. rewrite deleteUser_run.
    destruct (authorized (db w) approverId); [|reflexivity].
    rewrite Hu. by rewrite bool_decide_true.
  - intros. rewrite handle_world. by eapply service_keeps_admins.
  - intros. rewrite handle_world. by apply service_keeps_users.
Qed.
End DeleteUserClaims.

(** C3 at an approver who is a plain user and at one who does not exist. *)
Lemma deleteUser_unauthorized_approver_witness :
  (prisma.User_table (db examples.small_world) !! 7 = None ∨
   ∃ a, prisma.User_table (db examples.small_world) !! 7 = Some a
        ∧ prisma.role a ≠ prisma.ADMIN) ∧
  deleteUser_service.deleteUser 2 7 examples.small_world =
    (Ok {| deleteUser_service.status := "error";
           deleteUser_service.message :=
             "Approver is not authorized or does not exist." |},
     grow examples.small_world [Query "User" "find_unique"]).
Proof.
  split.
  - left. reflexivity.
  - apply (deleteUser_unauthorized_approver examples.small_world 2 7).
    left. reflexivity.
Defined.

(** C2 as stated fails: an administrator as target and a plain user as
    approver give the approver message, not "Cannot delete an admin user.". *)
Lemma deleteUser_admin_message_counterexample :
  ¬ (∀ (w : World) (userId approverId : Z) (u : prisma.UserRow),
       prisma.User_table (db w) !! userId = Some u →
       prisma.role u = prisma.ADMIN →
       (deleteUser_service.deleteUser userId approverId w).1 =
         Ok {| deleteUser_service.status := "error";
               deleteUser_service.message := "Cannot delete an admin user." |}).
Proof.
  intros H.
  specialize (H examples.small_world 1 2 examples.root eq_refl eq_refl).
  vm_compute in H. discriminate H.
Qed.

(** C2 on the example store: the administrator is still there after a
    request to delete it, and the plain user, in a store that is then
    without any administrator, is still there after a request to another
    handler. *)
Lemma admin_row_is_never_deleted_witness :
  prisma.User_table (db examples.small_world) !! 1 = Some examples.root ∧
  prisma.role examples.root = prisma.ADMIN ∧
  is_Some (prisma.User_table
             (db (server.handle examples.helpful examples.salt examples.hash
                    (server.deleteUser 1 1) examples.small_world).2) !! 1) ∧
  is_deleteUser (server.deleteUserRole 2) = false ∧
  is_Some (prisma.User_table (db examples.small_world) !! 2) ∧
  is_Some (prisma.User_table
             (db (server.handle examples.helpful examples.salt examples.hash
                    (server.deleteUserRole 2) examples.small_world).2) !! 2).
Proof.
  split; [reflexivity|]. split; [reflexivity|].
  split.
  { exact (proj1 (proj2 (admin_row_is_never_deleted examples.small_world))
             examples.helpful examples.salt examples.hash (server.deleteUser 1 1)
             1 examples.root eq_refl eq_refl). }
  split; [reflexivity|].
  split; [by eexists|].
  exact (proj2 (proj2 (admin_row_is_never_deleted examples.small_world))
           examples.helpful examples.salt examples.hash (server.deleteUserRole 2)
           2 eq_refl (ex_intro _ examples.bob eq_refl)).
Defined.

(** A successful deletion: four data-store operations, the plain user is
    gone and the administrator is still there. *)
Example deleteUser_success :
  let w' := (deleteUser_service.deleteUser 2 1 examples.small_world).2 in
  new_events examples.small_world w'
    = [Query "User" "find_unique"; Query "User" "find_unique";
       Query "EmojiRequest" "delete_many"; Query "User" "delete"] ∧
  prisma.User_table (db w') !! 2 = None ∧
  prisma.User_table (db w') !! 1 = Some examples.root.
Proof. vm_compute. repeat split. Qed.

(** * The handler wrapper and the answer the client receives *)

Section WrapperClaims.
Import server.
Variable interpreter : list Event → string → httpx.Reply.
Variable gensalt : list Event → string.
Variable hashpw : string → string → Result string.

Abbreviation service := (service interpreter gensalt hashpw).
Abbreviation handle := (handle interpreter gensalt hashpw).

(** Whatever the service raises, the client is answered with status 500. *)
Lemma guarded_status (svc : M ResponseModel) w e :
  (svc w).1 = Raise e → reply_status (respond (guarded svc w).1) = 500.
Proof.
  intros H. rewrite guarded_run. destruct (svc w) as [[m|e'] w']; simpl in *.
  - discriminate H.
  - reflexivity.
Qed.

(** C1, on the code.  When the service under a handler raises, the
    handler's [except] branch builds the dictionary with the key "error"
    and hands it to [Response] as content; rendering that content raises
    [AttributeError], so the handler itself raises and the client receives
    the plain-text answer of the server-error middleware with status 500,
    not a JSON body with the key "error".  This is the same for all
    thirteen handlers. *)
Theorem handler_error_translation (c : Call) (w : World) (e : exn) :
  (service c w).1 = Raise e →
  (handle c w).1 = Raise (AttributeError "'dict' object has no attribute 'encode'") ∧
  respond (handle c w).1 =
    {| reply_status := 500;
       reply_media_type := Some "text/plain; charset=utf-8";
       reply_body := Raw "Internal Server Error" |}.
Proof.
  intros H. rewrite handle_guarded, guarded_run.
  destruct (service c w) as [[m|e'] w']; simpl in *.
  - discriminate H.
  - split; reflexivity.
Qed.

(** C6, as amended.  In every request a handler makes at most one outbound
    call and at most four data-store operations: [submitEmoji], and only
    it, calls the interpretation service, exactly once, next to its
    data-store operations; [deleteUser] makes up to four data-store
    operations and every other handler at most two. *)
Theorem handler_events (c : Call) (w : World) :
  let evs := new_events w (handle c w).2 in
  posts evs = (if calls_interpreter c then 1 else 0)%nat ∧
  (queries evs ≤ if is_deleteUser c then 4 else 2)%nat.
Proof. rewrite handle_world. apply service_events. Qed.
End WrapperClaims.

(** C1 at a request for the recent emojis when there are none: the service
    raises the 404 exception and the handler raises in turn. *)
Lemma handler_error_translation_witness :
  (server.service examples.helpful examples.salt examples.hash
     (server.fetchRecentEmojis (fetchRecentEmojis_service.Build_GetRecentEmojisRequest))
     examples.empty_world).1
    = Raise (HTTPException 404 "No recent emojis found.") ∧
  server.respond
    (server.handle examples.helpful examples.salt examples.hash
       (server.fetchRecentEmojis (fetchRecentEmojis_service.Build_GetRecentEmojisRequest))
       examples.empty_world).1
    = {| server.reply_status := 500;
         server.reply_media_type := Some "text/plain; charset=utf-8";
         server.reply_body := server.Raw "Internal Server Error" |}.
Proof.
  split; [reflexivity|].
  exact (proj2 (handler_error_translation examples.helpful examples.salt examples.hash
                  (server.fetchRecentEmojis
                     (fetchRecentEmojis_service.Build_GetRecentEmojisRequest))
                  examples.empty_world _ eq_refl)).
Defined.

(** C6 as stated fails twice: a successful [deleteUser] makes four data-store
    operations, and a successful [submitEmoji] makes the outbound call and
    two data-store operations in the same request. *)
Lemma handlers_store_or_call_counterexample :
  ¬ either_store_or_call
      (new_events examples.small_world
         (server.handle examples.helpful examples.salt examples.hash
            (server.deleteUser 2 1) examples.small_world).2) ∧
  ¬ either_store_or_call
      (new_events examples.small_world
         (server.handle examples.helpful examples.salt examples.hash
            (server.submitEmoji "wave") examples.small_world).2).
Proof.
  split; vm_compute; intros [[? ?]|[? ?]]; (lia || discriminate).
Qed.

(** * submitEmoji *)

Section SubmitEmoji.
Import prisma submitEmoji_service.
Variable interpreter : list Event → string → httpx.Reply.

Lemma posts_app (a b : list Event) : posts (a ++ b) = (posts a + posts b)%nat.
Proof. unfold posts. by rewrite List.filter_app, length_app. Qed.

(** The trace of a submission: the outbound call, then only queries. *)
Lemma submitEmoji_trace e w :
  ∃ qs, trace (submitEmoji interpreter e w).2 = (trace w ++ Post url e :: qs)%list
        ∧ posts qs = 0%nat.
Proof.
  open_services. exec.
  all: rewrite <- ?app_assoc; simpl; eexists; split; [reflexivity|reflexivity].
Qed.

(** A submission touches no table but the explanations, and those only by
    adding a row for an emoji that had none. *)
Lemma submitEmoji_store e w :
  EmojiExplanation_table (db (submitEmoji interpreter e w).2)
    = EmojiExplanation_table (db w) ∨
  (find_by (λ r, String.eqb (prisma.emoji r) e) (EmojiExplanation_table (db w)) = None ∧
   ∃ x, EmojiExplanation_table (db (submitEmoji interpreter e w).2)
        = <[EmojiExplanation_seq (db w) := {| prisma.emoji := e; prisma.explanation := x |}]>
            (EmojiExplanation_table (db w))).
Proof.
  open_services. exec; eauto.
Qed.

(** C8.  Every submission makes the outbound call exactly once, as the
    first thing it does and whatever the store holds; the explanations
    table is left as it was unless no row for the emoji existed, in which
    case at most that row is added; and a second submission of the same
    emoji, right after the first, makes the call again. *)
Theorem submitEmoji_calls_every_time (e : string) (w : World) :
  let w' := (submitEmoji interpreter e w).2 in
  (∃ qs, new_events w w' = Post url e :: qs ∧ posts qs = 0%nat) ∧
  (EmojiExplanation_table (db w') = EmojiExplanation_table (db w) ∨
   (find_by (λ r, String.eqb (prisma.emoji r) e) (EmojiExplanation_table (db w)) = None ∧
    ∃ x, EmojiExplanation_table (db w')
         = <[EmojiExplanation_seq (db w) := {| prisma.emoji := e; prisma.explanation := x |}]>
             (EmojiExplanation_table (db w)))) ∧
  posts (new_events w (submitEmoji interpreter e w').2) = 2%nat.
Proof.
  intros w'. subst w'. split; [|split].
  - destruct (submitEmoji_trace e w) as (qs & Htr & Hqs).
    exists qs. split; [|done]. unfold new_events. rewrite Htr. apply drop_app_length.
  - apply submitEmoji_store.
  - destruct (submitEmoji_trace e w) as (qs & Htr & Hqs).
    destruct (submitEmoji_trace e (submitEmoji interpreter e w).2) as (qs' & Htr' & Hqs').
    unfold new_events. rewrite Htr', Htr, <- app_assoc, drop_app_length.
    change (Post url e :: qs) with ([Post url e] ++ qs)%list.
    change (Post url e :: qs') with ([Post url e] ++ qs')%list.
    rewrite !posts_app, Hqs, Hqs'. reflexivity.
Qed.

(** C7.  When the outbound call fails, [submitEmoji] raises after that one
    call: the run adds the call to the trace and nothing else, so there is
    no second attempt and no data-store operation, the store is as it was,
    and the client is answered with status 500. *)
Theorem submitEmoji_failed_call (e : string) (w : World) :
  failed (interpreter (trace w) e) = true →
  (∃ x, submitEmoji interpreter e w = (Raise x, grow w [Post url e])) ∧
  (server.api_post_submitEmoji interpreter e w).2 = grow w [Post url e] ∧
  server.reply_status (server.respond (server.api_post_submitEmoji interpreter e w).1)
    = 500.
Proof.
  intros Hfail.
  assert (∃ x, submitEmoji interpreter e w = (Raise x, grow w [Post url e])) as [x Hx].
  { revert Hfail. unfold failed. open_services. unfold httpx.raise_for_status.
    exec; intros; try discriminate; eauto. }
  split; [eauto|].
  unfold server.api_post_submitEmoji. split.
  - rewrite guarded_world, as_model_world. by rewrite Hx.
  - apply guarded_status with (e := x). rewrite as_model_run. by rewrite Hx.
Qed.
End SubmitEmoji.

Lemma submitEmoji_failed_call_witness :
  failed (examples.broken (trace examples.small_world) "wave") = true ∧
  server.reply_status
    (server.respond (server.api_post_submitEmoji examples.broken "wave"
                       examples.small_world).1) = 500.
Proof.
  split; [reflexivity|].
  exact (proj2 (proj2 (submitEmoji_failed_call examples.broken "wave"
                         examples.small_world eq_refl))).
Defined.

(** Submitting an emoji whose explanation is stored: the outbound call is
    made all the same, then one lookup, and the table stays as it was. *)
Example submitEmoji_stored_emoji :
  let run := submitEmoji_service.submitEmoji examples.helpful "grin" examples.small_world in
  run.1 = Ok {| submitEmoji_service.emoji := "grin";
                submitEmoji_service.explanation := "meaning of grin" |} ∧
  new_events examples.small_world run.2
    = [Post submitEmoji_service.url "grin"; Query "EmojiExplanation" "find_unique"] ∧
  prisma.EmojiExplanation_table (db run.2)
    = prisma.EmojiExplanation_table examples.small_store.
Proof. vm_compute. repeat split. Qed.

(** * The two lookups of an explanation by id *)

Section Lookups.
Import prisma server.

Lemma matches_shape (p q : list Segment) (path : list string) :
  shape p = shape q → matches p path = matches q path.
Proof.
  revert q path. induction p as [|s p IH]; intros [|t q] path Hs; try discriminate Hs.
  - reflexivity.
  - simpl in Hs. injection Hs as Hst Hpq.
    destruct s, t; try discriminate Hst; destruct path as [|x xs]; simpl;
      try reflexivity.
    + injection Hst as ->. by rewrite (IH q xs Hpq).
    + by rewrite (IH q xs Hpq).
Qed.

Lemma int_raises (s : string) (e : exn) :
  builtins.int s = Raise e → is_ValueError e = true.
Proof. unfold builtins.int. intros H. repeat case_match; by simplify_eq. Qed.

(** The router never reaches the second registration. *)
Lemma fetchExplanation_unreachable (m : Method) (path : list string) :
  resolve m path ≠ Some route_fetchExplanation.
Proof.
  unfold resolve, routes. with_strategy opaque [matches] simpl.
  rewrite (matches_shape [Lit "emoji"; Lit "explanation"; Param "id"]
             [Lit "emoji"; Lit "explanation"; Param "emoji_id"] path eq_refl).
  repeat (case_match; try discriminate).
Qed.

Lemma fetchEmojiExplanation_run (emoji_id : string) (w : World) :
  fetchEmojiExplanation_service.fetchEmojiExplanation emoji_id w =
    match builtins.int emoji_id with
    | Raise e => (Raise e, w)
    | Ok i =>
        (match EmojiExplanation_table (db w) !! i with
         | None => Raise (ValueError ("No explanation found for emoji with id "
                                      +:+ emoji_id))
         | Some r =>
             Ok {| fetchEmojiExplanation_service.emoji := emoji r;
                   fetchEmojiExplanation_service.explanation := Some (explanation r) |}
         end, grow w [Query "EmojiExplanation" "find_unique"])
    end.
Proof.
  unfold fetchEmojiExplanation_service.fetchEmojiExplanation, bind at 1, lift.
  destruct (builtins.int emoji_id) as [i|e]; [|reflexivity].
  unfold bind. rewrite EmojiExplanation_find_unique_id_run.
  destruct (EmojiExplanation_table (db w) !! i); reflexivity.
Qed.

Lemma fetchExplanation_run (id : string) (w : World) :
  fetchExplanation_service.fetchExplanation id w =
    match builtins.int id with
    | Raise e => (Raise e, w)
    | Ok i =>
        (match EmojiExplanation_table (db w) !! i with
         | None => Raise (ValueError "No explanation found with the provided ID.")
         | Some r =>
             Ok {| fetchExplanation_service.emoji := emoji r;
                   fetchExplanation_service.explanation := explanation r |}
         end, grow w [Query "EmojiExplanation" "find_unique"])
    end.
Proof.
  unfold fetchExplanation_service.fetchExplanation, bind at 1, lift.
  destruct (builtins.int id) as [i|e]; [|reflexivity].
  unfold bind. rewrite EmojiExplanation_find_unique_id_run.
  destruct (EmojiExplanation_table (db w) !! i); reflexivity.
Qed.

Lemma duplicate_registration :
  ∃ r1 r2, r1 ∈ routes ∧ r2 ∈ routes ∧
           endpoint r1 = route_fetchEmojiExplanation ∧
           endpoint r2 = route_fetchExplanation ∧
           method r1 = method r2 ∧ shape (pattern r1) = shape (pattern r2).
Proof.
  exists {| method := GET; pattern := [Lit "emoji"; Lit "explanation"; Param "emoji_id"];
            endpoint := route_fetchEmojiExplanation |},
         {| method := GET; pattern := [Lit "emoji"; Lit "explanation"; Param "id"];
            endpoint := route_fetchExplanation |}.
  unfold routes. repeat split; set_solver.
Qed.

(** C9.  The two functions convert the id with the same [int], make the
    same lookup and leave the same world behind; when the
    conversion fails both raise its [ValueError], when no row has the id
    both raise a [ValueError] (each with its own message), and otherwise
    both return the emoji and the explanation of the row.  Their routes
    are registered with the same method and the same path pattern up to
    the name of the parameter, and the router never selects the second. *)
Theorem fetchExplanation_duplicates_fetchEmojiExplanation (id : string) (w : World) :
  let a := fetchEmojiExplanation_service.fetchEmojiExplanation id w in
  let b := fetchExplanation_service.fetchExplanation id w in
  a.2 = b.2 ∧ db a.2 = db w ∧ same_outcome a.1 b.1 ∧
  match builtins.int id with
  | Raise e => a.1 = Raise e ∧ b.1 = Raise e
  | Ok i =>
      match EmojiExplanation_table (db w) !! i with
      | None =>
          a.1 = Raise (ValueError ("No explanation found for emoji with id " +:+ id)) ∧
          b.1 = Raise (ValueError "No explanation found with the provided ID.")
      | Some r =>
          a.1 = Ok {| fetchEmojiExplanation_service.emoji := emoji r;
                      fetchEmojiExplanation_service.explanation := Some (explanation r) |} ∧
          b.1 = Ok {| fetchExplanation_service.emoji := emoji r;
                      fetchExplanation_service.explanation := explanation r |}
      end
  end ∧
  (∃ r1 r2, r1 ∈ routes ∧ r2 ∈ routes ∧
            endpoint r1 = route_fetchEmojiExplanation ∧
            endpoint r2 = route_fetchExplanation ∧
            method r1 = method r2 ∧ shape (pattern r1) = shape (pattern r2)) ∧
  (∀ m path, resolve m path ≠ Some route_fetchExplanation).
Proof.
  simpl. rewrite fetchEmojiExplanation_run, fetchExplanation_run.
  destruct (builtins.int id) as [i|e] eqn:Hint.
  - destruct (EmojiExplanation_table (db w) !! i) as [r|]; simpl;
      repeat split; auto using duplicate_registration, fetchExplanation_unreachable.
  - simpl. pose proof (int_raises _ _ Hint).
    repeat split; auto using duplicate_registration, fetchExplanation_unreachable.
Qed.
End Lookups.


(** * fetchRecentEmojis *)

Section Recent.
Import prisma actions fetchRecentEmojis_service.

#[local] Instance newer_first_transitive : Transitive newer_first.
Proof. intros x y z. unfold newer_first. lia. Qed.

#[local] Instance newer_first_total : Total newer_first.
Proof. intros x y. unfold newer_first. lia. Qed.

Lemma elem_of_rows {R} (t : gmap Z R) (m : Model R) :
  m ∈ rows t ↔ t !! id m = Some (columns m).
Proof.
  unfold rows. rewrite list_elem_of_fmap. split.
  - intros ([i r] & -> & Hin). simpl. by apply elem_of_map_to_list.
  - intros H. exists (id m, columns m). split; [by destruct m|].
    by apply elem_of_map_to_list.
Qed.

Lemma NoDup_rows {R} (t : gmap Z R) : NoDup (rows t).
Proof.
  unfold rows. apply NoDup_fmap_2; [|apply NoDup_map_to_list].
  intros [i r] [j s] H. by injection H as -> ->.
Qed.

Lemma elem_of_explained (s : Store) (r : EmojiRequest) :
  r ∈ explained s ↔
  EmojiRequest_table s !! id r = Some (columns r) ∧ status (columns r) = "EXPLAINED".
Proof.
  unfold explained. rewrite merge_sort_Permutation, list_elem_of_In, filter_In.
  split.
  - intros [Hin Hst]. apply list_elem_of_In, elem_of_rows in Hin.
    by apply String.eqb_eq in Hst.
  - intros [Hin Hst]. split.
    + by apply list_elem_of_In, elem_of_rows.
    + by apply String.eqb_eq.
Qed.

Lemma explained_sorted (s : Store) : StronglySorted newer_first (explained s).
Proof. apply StronglySorted_merge_sort; apply _. Qed.

Lemma explained_NoDup (s : Store) : NoDup (explained s).
Proof.
  unfold explained. rewrite merge_sort_Permutation.
  apply NoDup_ListNoDup, List.NoDup_filter, NoDup_ListNoDup, NoDup_rows.
Qed.

Lemma fetchRecentEmojis_run request w :
  fetchRecentEmojis request w =
    (match take 10 (explained (db w)) with
     | [] => Raise (HTTPException 404 "No recent emojis found.")
     | found =>
         Ok {| emojis := (λ r, {| emoji := req_emoji (columns r);
                                  explanation := req_explanation (columns r) |})
                         <$> found |}
     end, grow w [Query "EmojiRequest" "find_many"]).
Proof.
  unfold fetchRecentEmojis, bind. rewrite EmojiRequest_find_many_run.
  fold (explained (db w)). by destruct (take 10 (explained (db w))).
Qed.

(** C10.  [fetchRecentEmojis] makes one query and leaves the store as it
    was.  The rows it reports are at most ten, all of them rows of
    [EmojiRequest] with status "EXPLAINED", no row twice, newest first, and
    no explained row left out is newer than a reported one; the entries it
    returns are, in that order, the emoji and the explanation of each of
    these rows.  When no explained row exists it raises the 404 exception,
    and the client is then answered with status 500. *)
Theorem fetchRecentEmojis_recent (request : GetRecentEmojisRequest) (w : World) :
  ∃ found rest : list EmojiRequest,
    (length found ≤ 10)%nat ∧
    Forall (λ r, EmojiRequest_table (db w) !! id r = Some (columns r)
                 ∧ status (columns r) = "EXPLAINED") found ∧
    NoDup found ∧
    StronglySorted newer_first (found ++ rest)%list ∧
    (∀ r, r ∈ (found ++ rest)%list ↔
          EmojiRequest_table (db w) !! id r = Some (columns r)
          ∧ status (columns r) = "EXPLAINED") ∧
    (found = [] → rest = []) ∧
    fetchRecentEmojis request w =
      (match found with
       | [] => Raise (HTTPException 404 "No recent emojis found.")
       | _ => Ok {| emojis := (λ r, {| emoji := req_emoji (columns r);
                                       explanation := req_explanation (columns r) |})
                              <$> found |}
       end, grow w [Query "EmojiRequest" "find_many"]) ∧
    server.reply_status (server.respond (server.api_get_fetchRecentEmojis request w).1)
      = match found with [] => 500 | _ => 200 end.
Proof.
  exists (take 10 (explained (db w))), (drop 10 (explained (db w))).
  rewrite take_drop.
  split; [rewrite length_take; lia|].
  split.
  { apply Forall_forall. intros r Hr. apply elem_of_explained.
    apply elem_of_take in Hr as (i & Hi & _).
    by eapply list_elem_of_lookup_2. }
  split; [exact (sublist_NoDup _ _ (explained_NoDup _) (sublist_take _ _))|].
  split; [apply explained_sorted|].
  split; [intros r; apply elem_of_explained|].
  split.
  { intros H. destruct (explained (db w)) as [|x l]; [reflexivity|discriminate H]. }
  split.
  - rewrite fetchRecentEmojis_run. by destruct (take 10 (explained (db w))).
  - unfold server.api_get_fetchRecentEmojis.
    rewrite guarded_run, as_model_run, fetchRecentEmojis_run.
    by destruct (take 10 (explained (db w))).
Qed.
End Recent.

(** The three requests of the example store: the pending one is left out and
    the newer explained one comes first. *)
Example fetchRecentEmojis_small_world :
  (fetchRecentEmojis_service.fetchRecentEmojis
     fetchRecentEmojis_service.Build_GetRecentEmojisRequest examples.small_world).1
  = Ok {| fetchRecentEmojis_service.emojis :=
            [ {| fetchRecentEmojis_service.emoji := "star";
                 fetchRecentEmojis_service.explanation := Some "seen" |};
              {| fetchRecentEmojis_service.emoji := "grin";
                 fetchRecentEmojis_service.explanation := Some "seen" |} ] |}.
Proof. vm_compute. reflexivity. Qed.

(** * createUser and authenticateUser *)

Section Passwords.
Import prisma actions.
Variable gensalt : list Event → string.
Variable hashpw : string → string → Result string.

Lemma find_by_Some {R} (p : R → bool) (t : gmap Z R) (m : Model R) :
  find_by p t = Some m → t !! id m = Some (columns m) ∧ p (columns m) = true.
Proof.
  unfold find_by. intros H. apply find_some in H as [Hin Hp].
  split; [|done]. by apply elem_of_rows, list_elem_of_In.
Qed.

Lemma find_by_None {R} (p : R → bool) (t : gmap Z R) (i : Z) (r : R) :
  find_by p t = None → t !! i = Some r → p r = false.
Proof.
  unfold find_by. intros H Hi.
  apply (find_none _ _ H {| id := i; columns := r |}).
  by apply list_elem_of_In, elem_of_rows.
Qed.

(** Selecting by a unique column after a row with a fresh value of that
    column was added finds that row. *)
Lemma find_by_insert {R} (p : R → bool) (t : gmap Z R) (i : Z) (r : R) :
  find_by p t = None → p r = true →
  find_by p (<[i := r]> t) = Some {| id := i; columns := r |}.
Proof.
  intros Hnone Hp.
  destruct (find_by p (<[i := r]> t)) as [m|] eqn:Hfind.
  - apply find_by_Some in Hfind as [Hm Hpm].
    rewrite lookup_insert in Hm. case_decide as Hi.
    + destruct m as [j c]; simpl in *. by simplify_eq.
    + by rewrite (find_by_None p t _ _ Hnone Hm) in Hpm.
  - pose proof (find_by_None p _ i r Hfind) as H.
    rewrite lookup_insert_eq in H. specialize (H eq_refl). congruence.
Qed.

Lemma createUser_run username password role w :
  createUser_service.createUser gensalt hashpw username password role w =
    match hashpw password (gensalt (trace w)) with
    | Raise e => (Raise e, w)
    | Ok h =>
        let r := {| email := username; prisma.password := h; prisma.role := role |} in
        match find_by (λ r', String.eqb (email r') username) (User_table (db w)),
              User_table (db w) !! User_seq (db w) with
        | None, None =>
            (Raise (KeyError (Role_name role)),
             with_db (set_users (<[User_seq (db w) := r]> (User_table (db w)))
                                (User_seq (db w) + 1) (db w))
                     w [Query "User" "create"])
        | _, _ => (Raise (UniqueViolationError "Unique constraint failed"),
                   grow w [Query "User" "create"])
        end
    end.
Proof.
  unfold createUser_service.createUser, bind at 1. simpl.
  unfold bind at 1, lift.
  destruct (hashpw password (gensalt (trace w))) as [h|e]; [|reflexivity].
  unfold bind at 1. rewrite User_create_run. simpl.
  destruct (find_by _ _); [reflexivity|].
  destruct (User_table (db w) !! _); reflexivity.
Qed.

Lemma authenticateUser_run username password w :
  authenticateUser_service.authenticateUser username password w =
    (match find_by (λ r, String.eqb (email r) username) (User_table (db w)) with
     | None => Ok {| authenticateUser_service.jwt := "";
                     authenticateUser_service.error := Some "Invalid username or password" |}
     | Some u =>
         if negb (String.eqb (prisma.password (columns u)) password) then
           Ok {| authenticateUser_service.jwt := "";
                 authenticateUser_service.error := Some "Invalid username or password" |}
         else
           Ok {| authenticateUser_service.jwt := "example_token_for_" +:+ pretty (id u);
                 authenticateUser_service.error := None |}
     end, grow w [Query "User" "find_unique"]).
Proof.
  unfold authenticateUser_service.authenticateUser, bind.
  rewrite User_find_unique_email_run.
  destruct (find_by _ _) as [u|]; [|reflexivity].
  destruct (negb _); reflexivity.
Qed.

End Passwords.


(** * What later requests can do to a stored hash *)

Section Later.
Import prisma actions server.
Variable interpreter : list Event → string → httpx.Reply.
Variable gensalt : list Event → string.
Variable hashpw : string → string → Result string.

Lemma service_keeps_hash c w i h :
  keeps_hash i h (db w) →
  keeps_hash i h (db (service interpreter gensalt hashpw c w).2).
Proof.
  intros [Hseq Hrow].
  destruct c; unfold server.service; rewrite as_model_world.
  all: open_services; exec.
  all: split; simpl; try lia; try done.
  all: intros r; rewrite ?lookup_insert, ?lookup_delete; repeat case_decide;
    intros; simplify_eq/=; eauto; try lia.
Qed.

Lemma run_all_keeps_hash cs w i h :
  keeps_hash i h (db w) →
  keeps_hash i h (db (run_all interpreter gensalt hashpw cs w)).
Proof.
  revert w. induction cs as [|c cs IH]; intros w H; simpl; [done|].
  apply IH. rewrite handle_world. by apply service_keeps_hash.
Qed.

(** With the hash in the password column of row [i], a login with the
    password itself is refused or is the login of another row. *)
Lemma authenticateUser_not_as i h username password w :
  keeps_hash i h (db w) → h ≠ password →
  (authenticateUser_service.authenticateUser username password w).1
    = Ok {| authenticateUser_service.jwt := "";
            authenticateUser_service.error := Some "Invalid username or password" |} ∨
  ∃ j, j ≠ i ∧
    (authenticateUser_service.authenticateUser username password w).1
      = Ok {| authenticateUser_service.jwt := "example_token_for_" +:+ pretty j;
              authenticateUser_service.error := None |}.
Proof.
  intros [_ Hrow] Hdiff. rewrite authenticateUser_run. simpl.
  destruct (find_by _ _) as [u|] eqn:Hfind; [|by left].
  destruct (String.eqb_spec (prisma.password (columns u)) password) as [Hpw|_]; [|by left].
  right. exists (id u). split; [|reflexivity].
  intros <-. apply find_by_Some in Hfind as [Hu _].
  apply Hrow in Hu. congruence.
Qed.

(** C4.  The row that a call of [createUser] adds to the store holds the
    hash in its password column; the statement is about the store after
    the call, which is where the row is, the call itself ending in an
    exception at its last line.  [authenticateUser] compares that column
    with the submitted password as strings, so, the hash being different
    from the password, authenticating at once with the same username and
    password returns the empty token and the error "Invalid username or
    password"; and after any later requests a login with that password,
    under any username, is refused or yields the token of another user. *)
Theorem created_user_cannot_authenticate
    (w : World) (username password : string) (role : Role) (i : Z) (r : UserRow) :
  User_table (db w) !! i = None →
  User_table (db (createUser_service.createUser gensalt hashpw username password role w).2)
    !! i = Some r →
  hashpw password (gensalt (trace w)) ≠ Ok password →
  let w' := (createUser_service.createUser gensalt hashpw username password role w).2 in
  (∃ h, hashpw password (gensalt (trace w)) = Ok h ∧
        r = {| email := username; prisma.password := h; prisma.role := role |}) ∧
  (authenticateUser_service.authenticateUser username password w').1
    = Ok {| authenticateUser_service.jwt := "";
            authenticateUser_service.error := Some "Invalid username or password" |} ∧
  (∀ cs username',
     let later := run_all interpreter gensalt hashpw cs w' in
     (authenticateUser_service.authenticateUser username' password later).1
       = Ok {| authenticateUser_service.jwt := "";
               authenticateUser_service.error := Some "Invalid username or password" |} ∨
     ∃ j, j ≠ i ∧
       (authenticateUser_service.authenticateUser username' password later).1
         = Ok {| authenticateUser_service.jwt := "example_token_for_" +:+ pretty j;
                 authenticateUser_service.error := None |}).
Proof.
  rewrite createUser_run. intros Hfresh Hrow Hdiff.
  destruct (hashpw password (gensalt (trace w))) as [h|e]; [|simpl in Hrow; congruence].
  simpl in Hrow |- *.
  destruct (find_by _ (User_table (db w))) eqn:Hfree; [simpl in Hrow; congruence|].
  destruct (User_table (db w) !! User_seq (db w)) eqn:Hkey; [simpl in Hrow; congruence|].
  simpl in Hrow |- *.
  rewrite lookup_insert in Hrow. case_decide as Hi; [|congruence].
  injection Hrow as <-. subst i.
  split; [|split].
  - by exists h.
  - rewrite authenticateUser_run. simpl.
    rewrite (find_by_insert _ _ _ _ Hfree) by apply String.eqb_refl. simpl.
    destruct (String.eqb_spec h password) as [->|_]; [done|reflexivity].
  - intros cs username'. apply authenticateUser_not_as with (h := h); [|congruence].
    apply run_all_keeps_hash. split; simpl; [lia|].
    intros r. rewrite lookup_insert_eq. by intros [= <-].
Qed.
End Later.

(** C4 on the example store: the call adds row 3 for carol, and carol's
    login with the password just given is refused. *)
Lemma created_user_cannot_authenticate_witness :
  prisma.User_table (db examples.small_world) !! 3 = None ∧
  prisma.User_table
    (db (createUser_service.createUser examples.salt examples.hash
           "carol@example.com" "s3cret" prisma.USER examples.small_world).2) !! 3
    = Some {| prisma.email := "carol@example.com";
              prisma.password := "$2b$12$0123456789abcdefghijkls3cret";
              prisma.role := prisma.USER |} ∧
  examples.hash "s3cret" (examples.salt (trace examples.small_world)) ≠ Ok "s3cret" ∧
  (authenticateUser_service.authenticateUser "carol@example.com" "s3cret"
     (createUser_service.createUser examples.salt examples.hash
        "carol@example.com" "s3cret" prisma.USER examples.small_world).2).1
  = Ok {| authenticateUser_service.jwt := "";
          authenticateUser_service.error := Some "Invalid username or password" |}.
Proof.
  split; [reflexivity|]. split; [reflexivity|]. split; [discriminate|].
  exact (proj1 (proj2 (created_user_cannot_authenticate examples.helpful examples.salt
                         examples.hash examples.small_world "carol@example.com" "s3cret"
                         prisma.USER 3 _ eq_refl eq_refl ltac:(discriminate)))).
Defined.

(** * Handlers given the id of a user that does not exist *)

Section MissingUser.
Import prisma actions.

Lemma addUserRole_missing_user (w : World) (user_id : Z) (new_role : Role) :
  User_table (db w) !! user_id = None →
  addUserRole_service.addUserRole user_id new_role w =
    (Ok {| addUserRole_service.success := false;
           addUserRole_service.message :=
             "No user found with ID " +:+ pretty user_id +:+ "." |},
     grow w [Query "User" "find_unique"]).
Proof.
  intros H. unfold addUserRole_service.addUserRole, bind.
  rewrite User_find_unique_id_run, H. reflexivity.
Qed.

Lemma deleteUserRole_missing_user (w : World) (user_id : Z) :
  User_table (db w) !! user_id = None →
  deleteUserRole_service.deleteUserRole user_id w =
    (Ok {| deleteUserRole_service.success := false;
           deleteUserRole_service.message := "User not found." |},
     grow w [Query "User" "find_unique"]).
Proof.
  intros H. unfold deleteUserRole_service.deleteUserRole, try_except, bind.
  rewrite User_find_unique_id_run, H. reflexivity.
Qed.

(** C5, on the code.  Given an id that no row has, [addUserRole] and
    [deleteUserRole] look the user up and return their error payload.
    [updateUser] does not: it makes one query ([update] when a column is
    given, [find_unique] when none is), gets [None] and passes it as the
    required field [updated_user] of its response, which is refused with a
    [ValidationError]; so it raises and returns no payload. *)
Theorem missing_user_handling (w : World) (userId : Z)
    (new_role : Role) (email : option string) (role : option Role) :
  User_table (db w) !! userId = None →
  addUserRole_service.addUserRole userId new_role w =
    (Ok {| addUserRole_service.success := false;
           addUserRole_service.message :=
             "No user found with ID " +:+ pretty userId +:+ "." |},
     grow w [Query "User" "find_unique"]) ∧
  deleteUserRole_service.deleteUserRole userId w =
    (Ok {| deleteUserRole_service.success := false;
           deleteUserRole_service.message := "User not found." |},
     grow w [Query "User" "find_unique"]) ∧
  updateUser_service.updateUser userId email role w =
    (Raise (ValidationError "updated_user: none is not an allowed value"),
     grow w [Query "User" (if bool_decide (is_Some email) || bool_decide (is_Some role)
                           then "update" else "find_unique")]).
Proof.
  intros H. split; [by apply addUserRole_missing_user|].
  split; [by apply deleteUserRole_missing_user|].
  unfold updateUser_service.updateUser.
  destruct (bool_decide (is_Some email) || bool_decide (is_Some role)); unfold bind.
  - rewrite User_update_run, H. reflexivity.
  - rewrite User_find_unique_id_run, H. reflexivity.
Qed.
End MissingUser.

Lemma missing_user_handling_witness :
  prisma.User_table (db examples.empty_world) !! 7 = None ∧
  (updateUser_service.updateUser 7 (Some "new@example.com") None examples.empty_world).1
    = Raise (ValidationError "updated_user: none is not an allowed value").
Proof.
  split; [reflexivity|].
  exact (f_equal fst (proj2 (proj2 (missing_user_handling examples.empty_world 7 prisma.USER
                                      (Some "new@example.com") None eq_refl)))).
Defined.


(** * Runs of the remaining client actions *)

Section MoreActions.
Import prisma actions.


Lemma EmojiRequest_count_run (w : World) :
  EmojiRequest_count w =
  (Ok (Z.of_nat (size (EmojiRequest_table (db w)))),
   grow w [Query "EmojiRequest" "count"]).
Proof. reflexivity. Qed.

Lemma EmojiExplanation_find_unique_emoji_run (e : string) (w : World) :
  EmojiExplanation_find_unique_emoji e w =
  (Ok (find_by (λ r, String.eqb (emoji r) e) (EmojiExplanation_table (db w))),
   grow w [Query "EmojiExplanation" "find_unique"]).
Proof. reflexivity. Qed.

Lemma EmojiExplanation_create_run (r : EmojiExplanationRow) (w : World) :
  EmojiExplanation_create r w =
    match find_by (λ r', String.eqb (emoji r') (emoji r)) (EmojiExplanation_table (db w)),
          EmojiExplanation_table (db w) !! EmojiExplanation_seq (db w) with
    | None, None =>
        (Ok {| id := EmojiExplanation_seq (db w); columns := r |},
         with_db (set_explanations
                    (<[EmojiExplanation_seq (db w) := r]> (EmojiExplanation_table (db w)))
                    (EmojiExplanation_seq (db w) + 1) (db w))
                 w [Query "EmojiExplanation" "create"])
    | _, _ => (Raise (UniqueViolationError "Unique constraint failed"),
               grow w [Query "EmojiExplanation" "create"])
    end.
Proof.
  unfold EmojiExplanation_create, bind, log, get_db; simpl.
  destruct (find_by _ _); [reflexivity|].
  destruct (EmojiExplanation_table (db w) !! _); reflexivity.
Qed.
End MoreActions.


(** * What no handler does *)

Section Never.
Import prisma server.
Variable interpreter : list Event → string → httpx.Reply.
Variable gensalt : list Event → string.
Variable hashpw : string → string → Result string.

Abbreviation service := (service interpreter gensalt hashpw).
Abbreviation handle := (handle interpreter gensalt hashpw).

(** X1.  The seven reading handlers leave the store exactly as it was,
    whether they return or raise. *)
Theorem read_only_handlers_keep_the_store (c : Call) (w : World) :
  read_only c = true → db (handle c w).2 = db w.
Proof.
  intros Hc. rewrite handle_world.
  destruct c; try discriminate Hc; unfold server.service; rewrite as_model_world.
  all: open_services; exec; reflexivity.
Qed.

(** X2.  No handler changes the password column of a row that stays: there
    is no way to change a stored password. *)
Theorem passwords_never_change (c : Call) (w : World) (i : Z) (r r' : UserRow) :
  User_table (db w) !! i = Some r →
  User_table (db (handle c w).2) !! i = Some r' →
  password r' = password r.
Proof.
  intros Hr. rewrite handle_world.
  destruct c; unfold server.service; rewrite as_model_world.
  all: open_services; exec.
  all: rewrite ?lookup_insert, ?lookup_delete; repeat case_decide;
    intros; simplify_eq/=; eauto.
Qed.

(** X3.  No handler changes or removes a stored explanation: the first
    explanation stored for an emoji stays for good. *)
Theorem explanations_never_change (c : Call) (w : World) (i : Z)
    (r : EmojiExplanationRow) :
  EmojiExplanation_table (db w) !! i = Some r →
  EmojiExplanation_table (db (handle c w).2) !! i = Some r.
Proof.
  intros Hr. rewrite handle_world.
  destruct c; unfold server.service; rewrite as_model_world.
  all: open_services; exec.
  all: rewrite ?lookup_insert; repeat case_decide; simplify_eq/=; eauto.
Qed.

(** No handler adds or changes a request row. *)
Lemma requests_never_grow (c : Call) (w : World) (k : Z) (q : EmojiRequestRow) :
  EmojiRequest_table (db (handle c w).2) !! k = Some q →
  EmojiRequest_table (db w) !! k = Some q.
Proof.
  rewrite handle_world.
  destruct c; unfold server.service; rewrite as_model_world.
  all: open_services; exec; try done.
  all: intros Hkq; by apply map_lookup_filter_Some in Hkq as [? _].
Qed.

(** X4.  Every handler keeps the requests attached to existing users:
    [deleteUser] removes the requests of a user before the user. *)
Theorem requests_keep_their_users (c : Call) (w : World) :
  requests_have_users (db w) → requests_have_users (db (handle c w).2).
Proof.
  unfold requests_have_users. rewrite handle_world. intros Hw k q.
  destruct c; unfold server.service; rewrite as_model_world.
  all: open_services; exec; try (by apply Hw).
  all: intros Hq.
  all: try (apply Hw in Hq as [x Hx]; rewrite lookup_insert; case_decide; by eauto).
  apply map_lookup_filter_Some in Hq as [Hq Hne]. simpl in Hne.
  apply Hw in Hq as [x Hx]. rewrite lookup_delete_ne by done. by eauto.
Qed.
End Never.


(** * Reading back a printed id *)

Section PrintedIds.
Import builtins.

Lemma digit_pretty_N_char (m : N) :
  (m < 10)%N → digit (pretty_N_char m) = Some (Z.of_N m).
Proof.
  intros H.
  assert (m = 0 ∨ m = 1 ∨ m = 2 ∨ m = 3 ∨ m = 4 ∨ m = 5 ∨ m = 6 ∨ m = 7 ∨ m = 8 ∨ m = 9)%N
    as Hm by lia.
  repeat destruct Hm as [->|Hm]; try subst m; reflexivity.
Qed.

(** Reading the digits that [pretty] wrote in front of [s]. *)
Lemma digits_pretty_N_go (x : N) (s : string) (acc : Z) (b : bool) :
  (0 < x)%N →
  ∃ p, digits acc b (pretty_N_go x s) = digits (acc * p + Z.of_N x) true s.
Proof.
  revert s acc b. induction (N.lt_wf_0 x) as [x _ IH]; intros s acc b Hx.
  rewrite pretty_N_go_step by done.
  destruct (N.eq_0_gt_0_cases (x `div` 10)) as [Hdiv|Hdiv].
  - rewrite Hdiv, pretty_N_go_0. simpl.
    rewrite digit_pretty_N_char by (apply N.mod_lt; lia).
    exists 10. f_equal.
    pose proof (N.div_mod x 10 ltac:(lia)). lia.
  - destruct (IH (x `div` 10)%N ltac:(apply N.div_lt; lia)
                (String (pretty_N_char (x `mod` 10)) s) acc b Hdiv) as [p Hp].
    rewrite Hp. simpl.
    rewrite digit_pretty_N_char by (apply N.mod_lt; lia).
    exists (10 * p). f_equal.
    pose proof (N.div_mod x 10 ltac:(lia)). lia.
Qed.

Lemma digits_pretty_positive (x : positive) :
  digits 0 false (pretty x) = Some (Z.pos x).
Proof.
  unfold pretty, pretty_positive, pretty, pretty_N.
  rewrite decide_False by done.
  destruct (digits_pretty_N_go (N.pos x) "" 0 false ltac:(lia)) as [p ->].
  simpl. f_equal.
Qed.

(** A string that reads as digits starts with a digit: no space, no sign. *)
Lemma int_of_digits (s : string) (z : Z) :
  digits 0 false s = Some z → int s = Ok z.
Proof.
  intros H. destruct s as [|c r]; [discriminate H|].
  unfold int. simpl in H |- *.
  destruct (digit c) as [d|] eqn:Hd; [|discriminate H].
  assert (is_space c = false ∧ Ascii.eqb c "-" = false ∧ Ascii.eqb c "+" = false)
    as (Hs & Hm & Hp).
  { unfold digit in Hd. unfold is_space.
    destruct ((48 <=? nat_of_ascii c)%nat && (nat_of_ascii c <=? 57)%nat) eqn:Hr;
      [|discriminate Hd].
    apply andb_prop in Hr as [H1 H2].
    apply Nat.leb_le in H1. apply Nat.leb_le in H2.
    repeat split.
    - apply orb_false_intro; [apply andb_false_intro2|]; [apply Nat.leb_gt|apply Nat.eqb_neq]; lia.
    - destruct (Ascii.eqb_spec c "-") as [->|]; [|done]. compute in H1. lia.
    - destruct (Ascii.eqb_spec c "+") as [->|]; [|done]. compute in H1. lia. }
  rewrite Hs, Hm, Hp. simpl. rewrite Hd, H. reflexivity.
Qed.

(** [int] reads back every integer as [str] prints it. *)
Lemma int_pretty (z : Z) : int (pretty z) = Ok z.
Proof.
  destruct z as [|x|x].
  - reflexivity.
  - apply int_of_digits, digits_pretty_positive.
  - change (pretty (Z.neg x)) with (String "-" (pretty x)).
    pose proof (digits_pretty_positive x) as H. revert H.
    generalize (pretty x). intros r H.
    unfold int. simpl. rewrite H. reflexivity.
Qed.
End PrintedIds.

(** * deleteUser, the rest *)

Section DeleteUserMore.
Import prisma deleteUser_service.

(** X6.  With an administrator as approver and a target that exists and is
    not an administrator, [deleteUser] answers success; the row of the
    target and exactly the requests of the target are gone, and every other
    row, the explanations and the key sequence are as before. *)
Theorem deleteUser_removes_target (w : World) (userId approverId : Z) (u : UserRow) :
  authorized (db w) approverId = true →
  User_table (db w) !! userId = Some u →
  role u ≠ ADMIN →
  let run := deleteUser userId approverId w in
  run.1 = Ok {| status := "success"; message := "User successfully deleted." |} ∧
  User_table (db run.2) !! userId = None ∧
  (∀ j, j ≠ userId → User_table (db run.2) !! j = User_table (db w) !! j) ∧
  (∀ k q, EmojiRequest_table (db run.2) !! k = Some q ↔
          EmojiRequest_table (db w) !! k = Some q ∧ prisma.userId q ≠ userId) ∧
  EmojiExplanation_table (db run.2) = EmojiExplanation_table (db w) ∧
  User_seq (db run.2) = User_seq (db w).
Proof.
  intros Ha Hu Hr. simpl. rewrite deleteUser_run, Ha, Hu.
  rewrite bool_decide_false by done. simpl.
  split; [reflexivity|]. split; [apply lookup_delete_eq|].
  split; [intros j Hj; by apply lookup_delete_ne|].
  split; [|done].
  intros k q. by rewrite map_lookup_filter_Some.
Qed.

(** X7.  Whatever the arguments, [deleteUser] returns one of its four
    answers, and it changes the store only when the answer is success. *)
Theorem deleteUser_changes_only_on_success (w : World) (userId approverId : Z) :
  ∃ r, (deleteUser userId approverId w).1 = Ok r ∧
       ((status r = "error" ∧ db (deleteUser userId approverId w).2 = db w ∧
         (message r = "Approver is not authorized or does not exist." ∨
          message r = "User does not exist." ∨
          message r = "Cannot delete an admin user.")) ∨
        (status r = "success" ∧ message r = "User successfully deleted." ∧
         authorized (db w) approverId = true ∧
         ∃ u, User_table (db w) !! userId = Some u ∧ role u ≠ ADMIN)).
Proof.
  rewrite deleteUser_run.
  destruct (authorized (db w) approverId) eqn:Ha.
  - destruct (User_table (db w) !! userId) as [u|] eqn:Hu.
    + case_bool_decide.
      * eexists. split; [reflexivity|]. left. simpl. auto.
      * eexists. split; [reflexivity|]. right. simpl. eauto 6.
    + eexists. split; [reflexivity|]. left. simpl. auto.
  - eexists. split; [reflexivity|]. left. simpl. auto.
Qed.
End DeleteUserMore.

Lemma deleteUser_removes_target_witness :
  authorized (db examples.small_world) 1 = true ∧
  prisma.User_table (db examples.small_world) !! 2 = Some examples.bob ∧
  prisma.role examples.bob ≠ prisma.ADMIN ∧
  prisma.User_table (db (deleteUser_service.deleteUser 2 1 examples.small_world).2) !! 2
    = None.
Proof.
  split; [reflexivity|]. split; [reflexivity|]. split; [discriminate|].
  exact (proj1 (proj2 (deleteUser_removes_target examples.small_world 2 1 examples.bob
                         eq_refl eq_refl ltac:(discriminate)))).
Defined.

(** * Selecting by a unique column *)

Section FindBy.
Import prisma.

Lemma find_by_None_intro {R} (p : R → bool) (t : gmap Z R) :
  (∀ j r, t !! j = Some r → p r = false) → find_by p t = None.
Proof.
  intros H. destruct (find_by p t) as [m|] eqn:Hm; [|done].
  apply find_by_Some in Hm as [Hin Hp]. by rewrite (H _ _ Hin) in Hp.
Qed.

(** Replacing row [i] by one that satisfies [p], when no other row does. *)
Lemma find_by_replace {R} (p : R → bool) (t : gmap Z R) (i : Z) (r : R) :
  find_by p (delete i t) = None → p r = true →
  find_by p (<[i := r]> t) = Some {| id := i; columns := r |}.
Proof.
  intros Hnone Hp. rewrite <- insert_delete_eq. by apply find_by_insert.
Qed.

Lemma find_by_only {R} (p : R → bool) (t : gmap Z R) (i : Z) (r : R) :
  t !! i = Some r → p r = true →
  (∀ j r', t !! j = Some r' → p r' = true → j = i) →
  find_by p t = Some {| id := i; columns := r |}.
Proof.
  intros Hi Hp Honly.
  destruct (find_by p t) as [m|] eqn:Hm.
  - apply find_by_Some in Hm as [Hin Hpm].
    destruct m as [j c]; simpl in *.
    pose proof (Honly _ _ Hin Hpm) as ->. by simplify_eq.
  - by rewrite (find_by_None _ _ _ _ Hm Hi) in Hp.
Qed.

Lemma only_user_others (s : Store) (i : Z) (e : string) :
  only_user_with_email s i e →
  find_by (λ o, String.eqb (email o) e) (delete i (User_table s)) = None.
Proof.
  intros Honly. apply find_by_None_intro. intros j r Hj.
  apply lookup_delete_Some in Hj as [Hne Hj].
  destruct (String.eqb_spec (email r) e) as [He|]; [|done].
  by destruct Hne; symmetry; eapply Honly.
Qed.
End FindBy.

(** * The role handlers *)

Section Roles.
Import prisma actions.

Lemma addUserRole_run (user_id : Z) (new_role : Role) (w : World) (u : UserRow) :
  User_table (db w) !! user_id = Some u →
  only_user_with_email (db w) user_id (email u) →
  addUserRole_service.addUserRole user_id new_role w =
    (Ok {| addUserRole_service.success := true;
           addUserRole_service.message := "User role updated successfully." |},
     with_db (set_users (<[user_id := {| email := email u; password := password u;
                                         role := new_role |}]> (User_table (db w)))
                        (User_seq (db w)) (db w))
             w [Query "User" "find_unique"; Query "User" "update"]).
Proof.
  intros Hu Honly. unfold addUserRole_service.addUserRole, bind at 1.
  rewrite User_find_unique_id_run, Hu. simpl.
  unfold try_except, bind. rewrite User_update_run. simpl. rewrite Hu. simpl.
  rewrite (only_user_others _ _ _ Honly). unfold ret, with_db, grow. simpl.
  by rewrite <- app_assoc.
Qed.

Lemma deleteUserRole_run (user_id : Z) (w : World) (u : UserRow) :
  User_table (db w) !! user_id = Some u →
  only_user_with_email (db w) user_id (email u) →
  deleteUserRole_service.deleteUserRole user_id w =
    (Ok {| deleteUserRole_service.success := true;
           deleteUserRole_service.message := "User role updated successfully." |},
     with_db (set_users (<[user_id := {| email := email u; password := password u;
                                         role := USER |}]> (User_table (db w)))
                        (User_seq (db w)) (db w))
             w [Query "User" "find_unique"; Query "User" "update"]).
Proof.
  intros Hu Honly. unfold deleteUserRole_service.deleteUserRole, try_except, bind at 1.
  rewrite User_find_unique_id_run, Hu. simpl.
  unfold bind. rewrite User_update_run. simpl. rewrite Hu. simpl.
  rewrite (only_user_others _ _ _ Honly). unfold ret, with_db, grow. simpl.
  by rewrite <- app_assoc.
Qed.

(** X8.  For a user that exists, [addUserRole] sets the role column to the
    new role, keeps email and password, touches no other row and reports
    success; it asks for no approver, so it also makes an administrator. *)
Theorem addUserRole_sets_role (user_id : Z) (new_role : Role) (w : World) (u : UserRow) :
  User_table (db w) !! user_id = Some u →
  only_user_with_email (db w) user_id (email u) →
  let run := addUserRole_service.addUserRole user_id new_role w in
  run.1 = Ok {| addUserRole_service.success := true;
                addUserRole_service.message := "User role updated successfully." |} ∧
  User_table (db run.2) !! user_id
    = Some {| email := email u; password := password u; role := new_role |} ∧
  (∀ j, j ≠ user_id → User_table (db run.2) !! j = User_table (db w) !! j) ∧
  EmojiRequest_table (db run.2) = EmojiRequest_table (db w) ∧
  EmojiExplanation_table (db run.2) = EmojiExplanation_table (db w).
Proof.
  intros Hu Honly. simpl. rewrite (addUserRole_run _ _ _ _ Hu Honly). simpl.
  split; [done|]. split; [apply lookup_insert_eq|].
  split; [|done]. intros j Hj. by apply lookup_insert_ne.
Qed.

(** X9.  For a user that exists, [deleteUserRole] makes the lookup and one
    update, sets the role column to USER, keeps email and password,
    touches no other row and no other table, and reports success with the
    message "User role updated successfully."; it asks for no approver and
    makes no exception for an administrator. *)
Theorem deleteUserRole_sets_USER (user_id : Z) (w : World) (u : UserRow) :
  User_table (db w) !! user_id = Some u →
  only_user_with_email (db w) user_id (email u) →
  let run := deleteUserRole_service.deleteUserRole user_id w in
  run.1 = Ok {| deleteUserRole_service.success := true;
                deleteUserRole_service.message := "User role updated successfully." |} ∧
  new_events w run.2 = [Query "User" "find_unique"; Query "User" "update"] ∧
  User_table (db run.2) !! user_id
    = Some {| email := email u; password := password u; role := USER |} ∧
  (∀ j, j ≠ user_id → User_table (db run.2) !! j = User_table (db w) !! j) ∧
  EmojiRequest_table (db run.2) = EmojiRequest_table (db w) ∧
  EmojiExplanation_table (db run.2) = EmojiExplanation_table (db w).
Proof.
  intros Hu Honly. simpl. rewrite (deleteUserRole_run _ _ _ Hu Honly). simpl.
  split; [done|]. split; [apply drop_app_length|]. split; [apply lookup_insert_eq|].
  split; [|done]. intros j Hj. by apply lookup_insert_ne.
Qed.

(** X10.  Nothing protects an administrator from [deleteUserRole]: after it,
    a [deleteUser] approved by another administrator removes the row. *)
Theorem demoted_administrator_can_be_deleted
    (w : World) (i approverId : Z) (u : UserRow) :
  User_table (db w) !! i = Some u →
  only_user_with_email (db w) i (email u) →
  authorized (db w) approverId = true →
  approverId ≠ i →
  let w1 := (deleteUserRole_service.deleteUserRole i w).2 in
  let run := deleteUser_service.deleteUser i approverId w1 in
  run.1 = Ok {| deleteUser_service.status := "success";
                deleteUser_service.message := "User successfully deleted." |} ∧
  User_table (db run.2) !! i = None.
Proof.
  intros Hu Honly Ha Hne. simpl.
  rewrite (deleteUserRole_run _ _ _ Hu Honly). cbn [snd].
  set (w1 := with_db _ w _).
  assert (authorized (db w1) approverId = true) as Ha1.
  { unfold authorized in *. subst w1. simpl. by rewrite lookup_insert_ne. }
  assert (User_table (db w1) !! i
          = Some {| email := email u; password := password u; role := USER |}) as Hu1.
  { subst w1. simpl. apply lookup_insert_eq. }
  rewrite deleteUser_run, Ha1, Hu1. simpl.
  split; [reflexivity|]. apply lookup_delete_eq.
Qed.
End Roles.

(** Checks [only_user_with_email] on a table written out row by row. *)
Ltac solve_emails :=
  let Hj := fresh "Hj" in let He := fresh "He" in
  intros ? ? Hj He; simpl in Hj;
  repeat (apply lookup_insert_Some in Hj as [[<- <-]|[? Hj]];
          [first [reflexivity | discriminate He]|]);
  by rewrite lookup_empty in Hj.

Lemma addUserRole_sets_role_witness :
  prisma.User_table (db examples.small_world) !! 2 = Some examples.bob ∧
  prisma.User_table
    (db (addUserRole_service.addUserRole 2 prisma.ADMIN examples.small_world).2) !! 2
  = Some {| prisma.email := "bob@example.com"; prisma.password := "b0b";
            prisma.role := prisma.ADMIN |}.
Proof.
  split; [reflexivity|].
  exact (proj1 (proj2 (addUserRole_sets_role 2 prisma.ADMIN examples.small_world
                         examples.bob eq_refl ltac:(solve_emails)))).
Defined.

Lemma deleteUserRole_sets_USER_witness :
  prisma.User_table (db more_examples.staff_world) !! 1 = Some examples.root ∧
  prisma.User_table
    (db (deleteUserRole_service.deleteUserRole 1 more_examples.staff_world).2) !! 1
  = Some {| prisma.email := "root@example.com"; prisma.password := "r00t";
            prisma.role := prisma.USER |}.
Proof.
  split; [reflexivity|].
  exact (proj1 (proj2 (proj2 (deleteUserRole_sets_USER 1 more_examples.staff_world
                                examples.root eq_refl ltac:(solve_emails))))).
Defined.

Lemma demoted_administrator_can_be_deleted_witness :
  prisma.User_table (db more_examples.staff_world) !! 1 = Some examples.root ∧
  authorized (db more_examples.staff_world) 3 = true ∧
  prisma.User_table
    (db (deleteUser_service.deleteUser 1 3
           (deleteUserRole_service.deleteUserRole 1 more_examples.staff_world).2).2)
    !! 1 = None.
Proof.
  split; [reflexivity|]. split; [reflexivity|].
  exact (proj2 (demoted_administrator_can_be_deleted more_examples.staff_world 1 3
                  examples.root eq_refl ltac:(solve_emails) eq_refl
                  ltac:(discriminate))).
Defined.

(** * updateUser and authenticateUser *)

Section Accounts.
Import prisma actions.

Lemma updateUser_run (w : World) (userId : Z) (u : UserRow)
    (email : option string) (role : option Role) :
  User_table (db w) !! userId = Some u →
  is_Some email ∨ is_Some role →
  only_user_with_email (db w) userId (default (prisma.email u) email) →
  let u' := {| prisma.email := default (prisma.email u) email;
               password := password u;
               prisma.role := default (prisma.role u) role |} in
  ∃ msg,
    updateUser_service.updateUser userId email role w =
      (Raise (ValidationError msg),
       with_db (set_users (<[userId := u']> (User_table (db w))) (User_seq (db w)) (db w))
               w [Query "User" "update"]).
Proof.
  intros Hu Hgiven Honly. simpl. unfold updateUser_service.updateUser.
  assert (bool_decide (is_Some email) || bool_decide (is_Some role) = true) as ->.
  { destruct Hgiven; [rewrite bool_decide_true by done|
                      rewrite (bool_decide_true (is_Some role)) by done];
      [done|apply orb_true_r]. }
  unfold bind. rewrite User_update_run, Hu.
  unfold apply_update at 1. simpl.
  rewrite (only_user_others _ _ _ Honly). eexists. reflexivity.
Qed.

(** X11.  For a user that exists, [updateUser] with at least one column given
    makes one update that replaces exactly the columns given and keeps the
    password and every other row; the new email must not be taken by
    another row.  The change is stored, and the call then raises a
    [ValidationError] when it builds its response from the updated row, so
    the caller is given no payload. *)
Theorem updateUser_updates (w : World) (userId : Z) (u : UserRow)
    (email : option string) (role : option Role) :
  User_table (db w) !! userId = Some u →
  is_Some email ∨ is_Some role →
  only_user_with_email (db w) userId (default (prisma.email u) email) →
  let run := updateUser_service.updateUser userId email role w in
  (∃ msg, run.1 = Raise (ValidationError msg)) ∧
  new_events w run.2 = [Query "User" "update"] ∧
  User_table (db run.2) !! userId
    = Some {| prisma.email := default (prisma.email u) email;
              password := password u;
              prisma.role := default (prisma.role u) role |} ∧
  (∀ j, j ≠ userId → User_table (db run.2) !! j = User_table (db w) !! j) ∧
  EmojiRequest_table (db run.2) = EmojiRequest_table (db w) ∧
  EmojiExplanation_table (db run.2) = EmojiExplanation_table (db w).
Proof.
  intros Hu Hgiven Honly. simpl.
  destruct (updateUser_run w userId u email role Hu Hgiven Honly) as [msg ->].
  simpl. split; [by exists msg|]. split; [apply drop_app_length|].
  split; [apply lookup_insert_eq|].
  split; [|done]. intros j Hj. by apply lookup_insert_ne.
Qed.

(** X12.  [updateUser] never returns a payload.  With no column given it
    makes one lookup, leaves the store as it was and raises a
    [ValidationError], whether the user exists or not; with a column given
    it raises as well, whatever the store holds. *)
Theorem updateUser_never_returns (w : World) (userId : Z) :
  (∃ msg, updateUser_service.updateUser userId None None w =
            (Raise (ValidationError msg), grow w [Query "User" "find_unique"])) ∧
  (∀ email role, ∃ e, (updateUser_service.updateUser userId email role w).1 = Raise e).
Proof.
  split.
  - unfold updateUser_service.updateUser.
    rewrite !bool_decide_false by (intros [? ?]; discriminate). simpl.
    unfold bind. rewrite User_find_unique_id_run.
    destruct (User_table (db w) !! userId); eexists; reflexivity.
  - intros email role. unfold updateUser_service.updateUser.
    destruct (bool_decide (is_Some email) || bool_decide (is_Some role)); unfold bind.
    + rewrite User_update_run.
      destruct (User_table (db w) !! userId); [|eexists; reflexivity].
      destruct (find_by _ _); eexists; reflexivity.
    + rewrite User_find_unique_id_run.
      destruct (User_table (db w) !! userId); eexists; reflexivity.
Qed.

(** X13.  When a row holds the submitted email and password, and the email is
    that row's alone, [authenticateUser] returns the token made of the fixed
    prefix and the id of the row, with no error, and leaves the store as it
    was. *)
Theorem authenticateUser_succeeds (w : World) (i : Z) (u : UserRow) :
  User_table (db w) !! i = Some u →
  only_user_with_email (db w) i (email u) →
  authenticateUser_service.authenticateUser (email u) (password u) w =
    (Ok {| authenticateUser_service.jwt := "example_token_for_" +:+ pretty i;
           authenticateUser_service.error := None |},
     grow w [Query "User" "find_unique"]).
Proof.
  intros Hu Honly. rewrite authenticateUser_run.
  rewrite (find_by_only _ _ i u Hu) ; [| apply String.eqb_refl |].
  - simpl. by rewrite String.eqb_refl.
  - intros j r' Hj He. apply String.eqb_eq in He. by eapply Honly.
Qed.

(** X14.  A token is issued only for a row that holds the submitted email and
    password: whenever the answer carries no error, such a row exists and
    the token is the one of its id. *)
Theorem authenticateUser_token_needs_row (w : World) (username password : string)
    (r : authenticateUser_service.UserAuthenticationResponse) :
  (authenticateUser_service.authenticateUser username password w).1 = Ok r →
  authenticateUser_service.error r = None →
  ∃ i u, User_table (db w) !! i = Some u ∧ email u = username ∧
         prisma.password u = password ∧
         authenticateUser_service.jwt r = "example_token_for_" +:+ pretty i.
Proof.
  rewrite authenticateUser_run. simpl.
  destruct (find_by _ _) as [m|] eqn:Hm.
  - apply find_by_Some in Hm as [Hin He].
    destruct (String.eqb_spec (prisma.password (columns m)) password) as [Hp|Hp]; simpl.
    + intros [= <-] _. exists (id m), (columns m).
      apply String.eqb_eq in He. by repeat split.
    + intros [= <-]. discriminate.
  - intros [= <-]. discriminate.
Qed.

(** X15.  After [updateUser] moved a user to a new email, the user logs in
    under the new email with the password stored before. *)
Theorem updateUser_then_authenticateUser (w : World) (userId : Z) (u : UserRow)
    (new_email : string) (role : option Role) :
  User_table (db w) !! userId = Some u →
  only_user_with_email (db w) userId new_email →
  let w' := (updateUser_service.updateUser userId (Some new_email) role w).2 in
  (authenticateUser_service.authenticateUser new_email (password u) w').1
    = Ok {| authenticateUser_service.jwt := "example_token_for_" +:+ pretty userId;
            authenticateUser_service.error := None |}.
Proof.
  intros Hu Honly. simpl.
  destruct (updateUser_run w userId u (Some new_email) role Hu
              (or_introl (ex_intro _ new_email eq_refl)) Honly) as [msg ->].
  rewrite authenticateUser_run. simpl.
  rewrite find_by_replace.
  - simpl. by rewrite String.eqb_refl.
  - by apply only_user_others.
  - apply String.eqb_refl.
Qed.
End Accounts.

Lemma updateUser_updates_witness :
  prisma.User_table (db examples.small_world) !! 2 = Some examples.bob ∧
  prisma.User_table
    (db (updateUser_service.updateUser 2 (Some "robert@example.com") None
           examples.small_world).2) !! 2
  = Some {| prisma.email := "robert@example.com"; prisma.password := "b0b";
            prisma.role := prisma.USER |}.
Proof.
  split; [reflexivity|].
  exact (proj1 (proj2 (proj2 (updateUser_updates examples.small_world 2 examples.bob
                                (Some "robert@example.com") None eq_refl
                                (or_introl (ex_intro _ _ eq_refl))
                                ltac:(solve_emails))))).
Defined.

Lemma authenticateUser_succeeds_witness :
  prisma.User_table (db examples.small_world) !! 2 = Some examples.bob ∧
  (authenticateUser_service.authenticateUser "bob@example.com" "b0b"
     examples.small_world).1
  = Ok {| authenticateUser_service.jwt := "example_token_for_2";
          authenticateUser_service.error := None |}.
Proof.
  split; [reflexivity|].
  exact (f_equal fst (authenticateUser_succeeds examples.small_world 2 examples.bob
                        eq_refl ltac:(solve_emails))).
Defined.

Lemma authenticateUser_token_needs_row_witness :
  ∃ i u, prisma.User_table (db examples.small_world) !! i = Some u ∧
         prisma.email u = "bob@example.com" ∧ prisma.password u = "b0b" ∧
         "example_token_for_2" = "example_token_for_" +:+ pretty i.
Proof.
  exact (authenticateUser_token_needs_row examples.small_world "bob@example.com" "b0b"
           _ eq_refl eq_refl).
Defined.

Lemma updateUser_then_authenticateUser_witness :
  prisma.User_table (db examples.small_world) !! 2 = Some examples.bob ∧
  (authenticateUser_service.authenticateUser "robert@example.com" "b0b"
     (updateUser_service.updateUser 2 (Some "robert@example.com") None
        examples.small_world).2).1
  = Ok {| authenticateUser_service.jwt := "example_token_for_2";
          authenticateUser_service.error := None |}.
Proof.
  split; [reflexivity|].
  exact (updateUser_then_authenticateUser examples.small_world 2 examples.bob
           "robert@example.com" None eq_refl ltac:(solve_emails)).
Defined.

(** * createUser and getUser *)

Section Creating.
Import prisma actions.
Variable gensalt : list Event → string.
Variable hashpw : string → string → Result string.

(** X16.  [createUser] never touches a row that exists: whatever the
    arguments and the outcome, every row of the store is the same after it. *)
Theorem createUser_keeps_rows (w : World) (username password : string) (role : Role)
    (j : Z) (r : UserRow) :
  User_table (db w) !! j = Some r →
  User_table (db (createUser_service.createUser gensalt hashpw username password role w).2)
    !! j = Some r.
Proof.
  intros Hj. rewrite createUser_run.
  destruct (hashpw password (gensalt (trace w))) as [h|e]; [|done]. simpl.
  destruct (find_by _ _); [done|].
  destruct (User_table (db w) !! User_seq (db w)) eqn:Hseq; [done|]. simpl.
  rewrite lookup_insert_ne; [done|]. intros <-. congruence.
Qed.

(** X17.  A username that a row already holds as email is refused: the
    create raises the unique-constraint error and the store is as before.
    The password is hashed first, so a password that the hash function
    refuses raises before any query is made. *)
Theorem createUser_refuses_taken_username (w : World) (username password : string)
    (role : Role) (j : Z) (r : UserRow) :
  User_table (db w) !! j = Some r → email r = username →
  match hashpw password (gensalt (trace w)) with
  | Ok _ =>
      createUser_service.createUser gensalt hashpw username password role w
        = (Raise (UniqueViolationError "Unique constraint failed"),
           grow w [Query "User" "create"])
  | Raise e =>
      createUser_service.createUser gensalt hashpw username password role w
        = (Raise e, w)
  end.
Proof.
  intros Hj He. rewrite createUser_run.
  destruct (hashpw password (gensalt (trace w))) as [h|e]; [|done]. simpl.
  destruct (find_by _ _) as [m|] eqn:Hm; [done|].
  pose proof (find_by_None _ _ _ _ Hm Hj) as Hno. simpl in Hno.
  rewrite He, String.eqb_refl in Hno. discriminate Hno.
Qed.

(** X18.  When the password is hashed, no row holds the username as email
    and the next key is free, [createUser] makes one create that stores
    the row (username as email, the hash, the role) under the next key and
    moves the key sequence on, keeps every other row, and then raises a
    [KeyError] when it looks the stored role up in the module's own enum:
    the user exists, and the caller is given no response. *)
Theorem createUser_stores_then_raises (w : World) (username password : string)
    (role : Role) (h : string) :
  hashpw password (gensalt (trace w)) = Ok h →
  (∀ j r, User_table (db w) !! j = Some r → email r ≠ username) →
  User_table (db w) !! User_seq (db w) = None →
  let run := createUser_service.createUser gensalt hashpw username password role w in
  run.1 = Raise (KeyError (Role_name role)) ∧
  new_events w run.2 = [Query "User" "create"] ∧
  User_table (db run.2) !! User_seq (db w)
    = Some {| email := username; prisma.password := h; prisma.role := role |} ∧
  (∀ j, j ≠ User_seq (db w) → User_table (db run.2) !! j = User_table (db w) !! j) ∧
  User_seq (db run.2) = User_seq (db w) + 1.
Proof.
  intros Hh Hfree Hkey.
  assert (createUser_service.createUser gensalt hashpw username password role w =
            (Raise (KeyError (Role_name role)),
             with_db (set_users (<[User_seq (db w) :=
                                     {| email := username; prisma.password := h;
                                        prisma.role := role |}]> (User_table (db w)))
                                (User_seq (db w) + 1) (db w))
                     w [Query "User" "create"])) as Hrun.
  { rewrite createUser_run, Hh. simpl.
    rewrite find_by_None_intro, Hkey; [reflexivity|].
    intros j r Hj. simpl. apply String.eqb_neq. by eapply Hfree. }
  simpl. rewrite Hrun. simpl.
  split; [done|]. split; [apply drop_app_length|]. split; [apply lookup_insert_eq|].
  split; [intros j Hj; by apply lookup_insert_ne|]. done.
Qed.
End Creating.

Section GetUser.
Import prisma actions.

End GetUser.

Lemma createUser_keeps_rows_witness :
  prisma.User_table (db examples.small_world) !! 2 = Some examples.bob ∧
  prisma.User_table
    (db (createUser_service.createUser examples.salt examples.hash
           "carol@example.com" "s3cret" prisma.USER examples.small_world).2) !! 2
  = Some examples.bob.
Proof.
  split; [reflexivity|].
  exact (createUser_keeps_rows examples.salt examples.hash examples.small_world
           "carol@example.com" "s3cret" prisma.USER 2 examples.bob eq_refl).
Defined.

Lemma createUser_refuses_taken_username_witness :
  prisma.User_table (db examples.small_world) !! 2 = Some examples.bob ∧
  createUser_service.createUser examples.salt examples.hash
    "bob@example.com" "s3cret" prisma.USER examples.small_world
  = (Raise (UniqueViolationError "Unique constraint failed"),
     grow examples.small_world [Query "User" "create"]).
Proof.
  split; [reflexivity|].
  exact (createUser_refuses_taken_username examples.salt examples.hash
           examples.small_world "bob@example.com" "s3cret" prisma.USER 2 examples.bob
           eq_refl eq_refl).
Defined.

Lemma createUser_stores_then_raises_witness :
  examples.hash "s3cret" (examples.salt (trace examples.small_world))
    = Ok "$2b$12$0123456789abcdefghijkls3cret" ∧
  prisma.User_table (db examples.small_world) !! prisma.User_seq (db examples.small_world)
    = None ∧
  (createUser_service.createUser examples.salt examples.hash
     "carol@example.com" "s3cret" prisma.ADMIN examples.small_world).1
    = Raise (KeyError "ADMIN") ∧
  prisma.User_table
    (db (createUser_service.createUser examples.salt examples.hash
           "carol@example.com" "s3cret" prisma.ADMIN examples.small_world).2) !! 3
    = Some {| prisma.email := "carol@example.com";
              prisma.password := "$2b$12$0123456789abcdefghijkls3cret";
              prisma.role := prisma.ADMIN |}.
Proof.
  split; [reflexivity|]. split; [reflexivity|].
  destruct (createUser_stores_then_raises examples.salt examples.hash examples.small_world
              "carol@example.com" "s3cret" prisma.ADMIN _ eq_refl
              ltac:(intros j r Hj He; simpl in Hj;
                    repeat (apply lookup_insert_Some in Hj as [[<- <-]|[? Hj]];
                            [discriminate He|]);
                    by rewrite lookup_empty in Hj)
              eq_refl) as (H1 & _ & H3 & _).
  exact (conj H1 H3).
Defined.

(** * submitEmoji, when the call answers *)

Section Answered.
Import prisma actions submitEmoji_service.
Variable interpreter : list Event → string → httpx.Reply.

Lemma call_answered (e x : string) (w : World) :
  answer (interpreter (trace w) e) = Some x →
  call_emoji_interpretation_service interpreter e w = (Ok x, grow w [Post url e]).
Proof.
  intros Ha. unfold call_emoji_interpretation_service, post.
  unfold httpx.raise_for_status, bind, lift, log, ret, grow.
  destruct (interpreter (trace w) e) as [m|c [| |[y|]]]; simpl in Ha; try discriminate Ha.
  destruct (httpx.is_success c) eqn:Hc; [|discriminate Ha].
  destruct y as [|a y]; [discriminate Ha|]. simpl in Ha. injection Ha as <-.
  with_strategy opaque [httpx.is_success] simpl.
  rewrite Hc. reflexivity.
Qed.

Lemma submitEmoji_stored_run (e x : string) (w : World) (m : EmojiExplanation) :
  answer (interpreter (trace w) e) = Some x →
  find_by (λ r, String.eqb (prisma.emoji r) e) (EmojiExplanation_table (db w)) = Some m →
  submitEmoji interpreter e w =
    (Ok {| submitEmoji_service.emoji := e; submitEmoji_service.explanation := x |},
     grow w [Post url e; Query "EmojiExplanation" "find_unique"]).
Proof.
  intros Ha Hm. unfold submitEmoji, bind at 1. rewrite (call_answered _ _ _ Ha).
  unfold bind at 1. rewrite EmojiExplanation_find_unique_emoji_run. simpl. rewrite Hm.
  unfold bind, ret. simpl. by rewrite grow_grow.
Qed.

Lemma submitEmoji_first_run (e x : string) (w : World) :
  answer (interpreter (trace w) e) = Some x →
  find_by (λ r, String.eqb (prisma.emoji r) e) (EmojiExplanation_table (db w)) = None →
  EmojiExplanation_table (db w) !! EmojiExplanation_seq (db w) = None →
  submitEmoji interpreter e w =
    (Ok {| submitEmoji_service.emoji := e; submitEmoji_service.explanation := x |},
     with_db (set_explanations
                (<[EmojiExplanation_seq (db w) := {| prisma.emoji := e; prisma.explanation := x |}]>
                   (EmojiExplanation_table (db w)))
                (EmojiExplanation_seq (db w) + 1) (db w))
             w [Post url e; Query "EmojiExplanation" "find_unique";
                Query "EmojiExplanation" "create"]).
Proof.
  intros Ha Hnone Hkey. unfold submitEmoji, bind at 1. rewrite (call_answered _ _ _ Ha).
  unfold bind at 1. rewrite EmojiExplanation_find_unique_emoji_run. simpl. rewrite Hnone.
  unfold bind at 1 2. rewrite EmojiExplanation_create_run. simpl. rewrite Hnone, Hkey.
  unfold ret, with_db, grow. simpl. by rewrite <- !app_assoc.
Qed.

(** X20.  When an explanation for the emoji is stored, [submitEmoji] returns
    what the interpretation service answered this time, not the stored
    explanation, and leaves the stored row as it is: the answer and the
    store can disagree. *)
Theorem submitEmoji_returns_the_fresh_answer (e x : string) (w : World)
    (m : EmojiExplanation) :
  answer (interpreter (trace w) e) = Some x →
  find_by (λ r, String.eqb (prisma.emoji r) e) (EmojiExplanation_table (db w)) = Some m →
  let run := submitEmoji interpreter e w in
  run.1 = Ok {| submitEmoji_service.emoji := e; submitEmoji_service.explanation := x |} ∧
  db run.2 = db w ∧
  EmojiExplanation_table (db run.2) !! id m = Some (columns m) ∧
  prisma.emoji (columns m) = e.
Proof.
  intros Ha Hm. simpl. rewrite (submitEmoji_stored_run _ _ _ _ Ha Hm). simpl.
  apply find_by_Some in Hm as [Hin He]. apply String.eqb_eq in He. done.
Qed.

(** X21.  The first successful submission of an emoji stores it under the
    next key, and both lookups by id, given that key as [str] prints it,
    return the emoji and the explanation that [submitEmoji] returned. *)
Theorem submitEmoji_then_fetch (e x : string) (w : World) :
  answer (interpreter (trace w) e) = Some x →
  find_by (λ r, String.eqb (prisma.emoji r) e) (EmojiExplanation_table (db w)) = None →
  EmojiExplanation_table (db w) !! EmojiExplanation_seq (db w) = None →
  let run := submitEmoji interpreter e w in
  let key := pretty (EmojiExplanation_seq (db w)) in
  run.1 = Ok {| submitEmoji_service.emoji := e; submitEmoji_service.explanation := x |} ∧
  (fetchExplanation_service.fetchExplanation key run.2).1
    = Ok {| fetchExplanation_service.emoji := e;
            fetchExplanation_service.explanation := x |} ∧
  (fetchEmojiExplanation_service.fetchEmojiExplanation key run.2).1
    = Ok {| fetchEmojiExplanation_service.emoji := e;
            fetchEmojiExplanation_service.explanation := Some x |}.
Proof.
  intros Ha Hnone Hkey. simpl. rewrite (submitEmoji_first_run _ _ _ Ha Hnone Hkey).
  simpl. split; [done|].
  rewrite fetchExplanation_run, fetchEmojiExplanation_run, int_pretty. simpl.
  by rewrite lookup_insert_eq.
Qed.
End Answered.

Lemma submitEmoji_returns_the_fresh_answer_witness :
  answer (examples.helpful (trace examples.small_world) "grin") = Some "meaning of grin" ∧
  (submitEmoji_service.submitEmoji examples.helpful "grin" examples.small_world).1
    = Ok {| submitEmoji_service.emoji := "grin";
            submitEmoji_service.explanation := "meaning of grin" |} ∧
  prisma.EmojiExplanation_table
    (db (submitEmoji_service.submitEmoji examples.helpful "grin" examples.small_world).2)
    !! 1 = Some examples.grin.
Proof.
  split; [reflexivity|].
  destruct (submitEmoji_returns_the_fresh_answer examples.helpful "grin" "meaning of grin"
              examples.small_world {| prisma.id := 1; prisma.columns := examples.grin |}
              eq_refl eq_refl) as (H1 & _ & H3 & _).
  exact (conj H1 H3).
Defined.

Lemma submitEmoji_then_fetch_witness :
  answer (examples.helpful (trace examples.small_world) "wave") = Some "meaning of wave" ∧
  (fetchExplanation_service.fetchExplanation "2"
     (submitEmoji_service.submitEmoji examples.helpful "wave" examples.small_world).2).1
    = Ok {| fetchExplanation_service.emoji := "wave";
            fetchExplanation_service.explanation := "meaning of wave" |}.
Proof.
  split; [reflexivity|].
  exact (proj1 (proj2 (submitEmoji_then_fetch examples.helpful "wave" "meaning of wave"
                         examples.small_world eq_refl eq_refl eq_refl))).
Defined.

(** * Requests are never created *)

Section NoRequests.
Import prisma server.
Variable interpreter : list Event → string → httpx.Reply.
Variable gensalt : list Event → string.
Variable hashpw : string → string → Result string.

Lemma run_all_requests_never_grow (cs : list Call) (w : World) (k : Z)
    (q : EmojiRequestRow) :
  EmojiRequest_table (db (run_all interpreter gensalt hashpw cs w)) !! k = Some q →
  EmojiRequest_table (db w) !! k = Some q.
Proof.
  revert w. induction cs as [|c cs IH]; intros w; simpl; [done|].
  intros H. apply IH in H. by eapply requests_never_grow.
Qed.

(** X5.  No handler creates a request row or changes its status, so when no
    request is explained, no sequence of requests to the service makes
    [fetchRecentEmojis] return anything: it raises the 404 exception after
    every one of them. *)
Theorem recent_emojis_never_appear (w : World) (cs : list Call)
    (request : fetchRecentEmojis_service.GetRecentEmojisRequest) :
  (∀ k q, EmojiRequest_table (db w) !! k = Some q → status q ≠ "EXPLAINED") →
  (fetchRecentEmojis_service.fetchRecentEmojis request
     (run_all interpreter gensalt hashpw cs w)).1
  = Raise (HTTPException 404 "No recent emojis found.").
Proof.
  intros Hnone. rewrite fetchRecentEmojis_run.
  set (w' := run_all interpreter gensalt hashpw cs w).
  assert (explained (db w') = []) as ->; [|reflexivity].
  destruct (explained (db w')) as [|r l] eqn:Hex; [done|exfalso].
  assert (r ∈ explained (db w')) as Hr by (rewrite Hex; apply list_elem_of_here).
  apply elem_of_explained in Hr as [Hin Hst].
  apply run_all_requests_never_grow in Hin. by apply Hnone in Hin.
Qed.
End NoRequests.

Lemma recent_emojis_never_appear_witness :
  (fetchRecentEmojis_service.fetchRecentEmojis
     fetchRecentEmojis_service.Build_GetRecentEmojisRequest
     (run_all examples.helpful examples.salt examples.hash
        [server.submitEmoji "grin";
         server.createUser "carol@example.com" "s3cret" prisma.USER;
         server.submitEmoji "wave"]
        examples.empty_world)).1
  = Raise (HTTPException 404 "No recent emojis found.").
Proof.
  apply (recent_emojis_never_appear examples.helpful examples.salt examples.hash
           examples.empty_world).
  intros k q Hk. simpl in Hk. by rewrite lookup_empty in Hk.
Defined.

(** * Routing and health *)

Section Routing.
Import server.

(** X22.  The router answers only with a registered route whose method and
    pattern match the request, and every registered endpoint except the
    second registration of the explanation path is selected by some
    request. *)
Theorem routing (e : Endpoint) :
  (∀ m path, resolve m path = Some e →
             ∃ r, r ∈ routes ∧ endpoint r = e ∧ method r = m
                  ∧ matches (pattern r) path = true) ∧
  (e = route_fetchExplanation ∨ ∃ m path, resolve m path = Some e).
Proof.
  split.
  - intros m path H. unfold resolve in H.
    destruct (List.find _ routes) as [r|] eqn:Hr; [|discriminate H].
    injection H as <-. apply find_some in Hr as [Hin Hok].
    apply andb_prop in Hok as [Hm Hp]. apply bool_decide_eq_true in Hm.
    exists r. by rewrite list_elem_of_In.
  - destruct e; [right..|left; reflexivity|right|right|right|right|right|right].
    + by exists GET, ["emojis"; "recent"].
    + by exists GET, ["emoji"; "explanation"; "1"].
    + by exists GET, ["users"; "1"].
    + by exists POST, ["emoji"; "interpret"].
    + by exists GET, ["system"; "status"].
    + by exists DELETE, ["admin"; "user-role"; "1"].
    + by exists POST, ["admin"; "user-role"].
    + by exists DELETE, ["users"; "1"].
    + by exists PUT, ["users"; "1"].
    + by exists POST, ["users"; "authenticate"].
    + by exists GET, ["health"].
    + by exists POST, ["users"].
Qed.
End Routing.

Section Health.
Import getApiHealth_service.

(** X23.  [getApiHealth] makes the one count query and reports "UP": a count
    is never negative, so the "UNKNOWN" answer is never given; the store is
    left as it was. *)
Theorem getApiHealth_up (request : HealthCheckRequest) (w : World) :
  getApiHealth request w =
    (Ok {| status := "UP";
           message := "API Gateway is running and accepting requests." |},
     grow w [Query "EmojiRequest" "count"]).
Proof.
  unfold getApiHealth, try_except, bind. rewrite EmojiRequest_count_run.
  destruct (Z.leb_spec 0 (Z.of_nat (size (prisma.EmojiRequest_table (db w)))));
    [reflexivity|lia].
Qed.
End Health.

(** * The invariants on the example store *)

Lemma read_only_handlers_keep_the_store_witness :
  read_only (server.getUser 2) = true ∧
  db (server.handle examples.helpful examples.salt examples.hash (server.getUser 2)
        examples.small_world).2 = db examples.small_world.
Proof.
  split; [reflexivity|].
  exact (read_only_handlers_keep_the_store examples.helpful examples.salt examples.hash
           (server.getUser 2) examples.small_world eq_refl).
Defined.

Lemma passwords_never_change_witness :
  prisma.User_table (db examples.small_world) !! 2 = Some examples.bob ∧
  prisma.User_table
    (db (server.handle examples.helpful examples.salt examples.hash
           (server.updateUser 2 (Some "robert@example.com") (Some prisma.ADMIN))
           examples.small_world).2) !! 2
  = Some {| prisma.email := "robert@example.com"; prisma.password := "b0b";
            prisma.role := prisma.ADMIN |} ∧
  prisma.password {| prisma.email := "robert@example.com"; prisma.password := "b0b";
                     prisma.role := prisma.ADMIN |} = prisma.password examples.bob.
Proof.
  split; [reflexivity|]. split; [reflexivity|].
  exact (passwords_never_change examples.helpful examples.salt examples.hash
           (server.updateUser 2 (Some "robert@example.com") (Some prisma.ADMIN))
           examples.small_world 2 examples.bob _ eq_refl eq_refl).
Defined.

Lemma explanations_never_change_witness :
  prisma.EmojiExplanation_table (db examples.small_world) !! 1 = Some examples.grin ∧
  prisma.EmojiExplanation_table
    (db (server.handle examples.helpful examples.salt examples.hash
           (server.submitEmoji "grin") examples.small_world).2) !! 1
  = Some examples.grin.
Proof.
  split; [reflexivity|].
  exact (explanations_never_change examples.helpful examples.salt examples.hash
           (server.submitEmoji "grin") examples.small_world 1 examples.grin eq_refl).
Defined.

Lemma requests_keep_their_users_witness :
  requests_have_users
    (db (server.handle examples.helpful examples.salt examples.hash
           (server.deleteUser 2 1) examples.small_world).2).
Proof.
  apply (requests_keep_their_users examples.helpful examples.salt examples.hash
           (server.deleteUser 2 1) examples.small_world).
  intros k q Hk. simpl in Hk.
  repeat (apply lookup_insert_Some in Hk as [[<- <-]|[? Hk]]; [by eexists|]).
  by rewrite lookup_empty in Hk.
Defined.
